(** * Fundraising signup calendar: calendar utilities and view-model handlers

    A shallow embedding of the pure helpers of [utils-calendar] (phone
    masking and cleaning, duplicate detection, coverage, week navigation;
    the second part of [src/lib/types.ts]) and of the state handlers of
    [src/components/CalendarGrid.tsx], of [EventDetailModal] (in
    [src/components/RoleRow.tsx]) and of
    [src/components/VolunteerSignupModal.tsx], followed by the properties
    proved about them.

    Conventions of the embedding.
    - A JavaScript string is the list of its UTF-16 code units ([list N]);
      [.length] is [length], [+] is [++], [===] is equality of lists.
    - A [Date] is its time value in milliseconds ([Z]); the handlers only
      build dates with [new Date()] and date-fns arithmetic, so the time
      value is always a number.
    - A [Record<string, T>] is a [gmap (list N) T]: a missing key reads as
      [None] ([undefined]).  Keys are ISO dates and ids made by
      [getDefaultRoles] and [generateId].
    - [useState] cells become fields of a state record; a handler is a
      function from state to state, and queued updaters run in the order
      they were queued.
    - [generateId()] and [new Date()] read the clock and the random source:
      the value they return is an argument of the handler that calls them. *)

From Stdlib Require Import ZArith NArith List Bool Lia String Ascii.
From stdpp Require Import gmap list.

Local Open Scope N_scope.

(** ** JavaScript strings *)

Abbreviation jsstring := (list N).

(** Code units of an ASCII literal. *)
Definition js (s : string) : jsstring :=
  List.map N_of_ascii (list_ascii_of_string s).

(** The class [\d] of a regular expression without the unicode flag. *)
Definition isDigit (c : N) : bool := (48 <=? c) && (c <=? 57).

(** [s.replace(/\D/g, '')] *)
Definition stripNonDigits (s : jsstring) : jsstring := List.filter isDigit s.

(** A string made of exactly ten digits. *)
Definition isTenDigitString (s : jsstring) : bool :=
  forallb isDigit s && (length s =? 10)%nat.

(** [s.slice(a, b)] for literal bounds [0 <= a], [0 <= b]; both are clamped
    to the length, and the result is empty when [b <= a]. *)
Definition slice (a b : nat) (s : jsstring) : jsstring :=
  take (b - a) (drop a s).

(** [s.slice(a)] *)
Definition sliceFrom (a : nat) (s : jsstring) : jsstring := drop a s.

(** ECMAScript WhiteSpace and LineTerminator code points, the characters
    removed by [String.prototype.trim]. *)
Definition isWhiteSpace (c : N) : bool :=
  (c =? 9) || (c =? 10) || (c =? 11) || (c =? 12) || (c =? 13) || (c =? 32)
  || (c =? 160) || (c =? 5760) || ((8192 <=? c) && (c <=? 8202))
  || (c =? 8232) || (c =? 8233) || (c =? 8239) || (c =? 8287)
  || (c =? 12288) || (c =? 65279).

Fixpoint trimStart (s : jsstring) : jsstring :=
  match s with
  | c :: s' => if isWhiteSpace c then trimStart s' else s
  | [] => []
  end.

Definition trimEnd (s : jsstring) : jsstring := rev (trimStart (rev s)).

(** [s.trim()] *)
Definition trim (s : jsstring) : jsstring := trimEnd (trimStart s).

(** The first code unit, if any, is not white space. *)
Definition cleanHead (s : jsstring) : Prop :=
  match s with
  | [] => True
  | c :: _ => isWhiteSpace c = false
  end.

(** [!s] for a string: only the empty string is falsy. *)
Definition isEmpty (s : jsstring) : bool :=
  match s with [] => true | _ => false end.

(** Lower-casing of one Basic Latin code unit. *)
Definition lowerUnit (c : N) : N :=
  if (65 <=? c) && (c <=? 90) then c + 32 else c.

Definition isBasicLatin (c : N) : bool := c <? 128.

(** [String.prototype.toLowerCase] restricted to Basic Latin text, where it
    is a unit-by-unit map.  The handlers below take the built-in as a
    parameter; this instance is used to run them on ASCII inputs. *)
Definition asciiLowerCase (s : jsstring) : jsstring := List.map lowerUnit s.

(** ** src/lib/types.ts *)

Record VolunteerEntry := mkVolunteerEntry {
  v_id : jsstring;
  v_name : jsstring;
  v_phone : jsstring
}.

Record RoleDefinition := mkRoleDefinition {
  r_id : jsstring;
  r_label : jsstring;
  r_isDefault : option bool;
  r_minVolunteers : Z
}.

Record Event := mkEvent {
  e_id : jsstring;
  e_details : jsstring;
  e_locked : bool;
  e_roles : gmap jsstring (list VolunteerEntry);
  e_createdAt : Z
}.

Record CoverageStatus := mkCoverageStatus {
  current : Z;
  minimum : Z;
  isMet : bool
}.

Record DayState := mkDayState {
  events : list Event
}.

Record NavigationBounds := mkNavigationBounds {
  minDate : Z;
  maxDate : Z
}.

(** ** utils-calendar (the second part of src/lib/types.ts) *)

(** date-fns [isBefore] and [isAfter] compare time values. *)
Definition isBefore (d c : Z) : bool := (d <? c)%Z.
Definition isAfter (d c : Z) : bool := (d >? c)%Z.

Definition canNavigateToWeek (weekStart : Z) (bounds : NavigationBounds) : bool :=
  negb (isBefore weekStart (minDate bounds))
  && negb (isAfter weekStart (maxDate bounds)).

Definition formatPhone (phone : jsstring) : jsstring :=
  let digits := stripNonDigits phone in
  if (length digits =? 10)%nat then
    js "(" ++ slice 0 3 digits ++ js ") " ++ slice 3 6 digits
      ++ js "-" ++ sliceFrom 6 digits
  else phone.

Definition cleanPhone (phone : jsstring) : jsstring :=
  let digits := stripNonDigits phone in
  if (length digits =? 10)%nat then digits else [].

Definition maskPhoneInput (value : jsstring) : jsstring :=
  let digits := stripNonDigits value in
  let formatted := [] in
  let formatted :=
    if (0 <? length digits)%nat then js "(" ++ slice 0 3 digits
    else formatted in
  let formatted :=
    if (3 <=? length digits)%nat then formatted ++ js ") " ++ slice 3 6 digits
    else formatted in
  let formatted :=
    if (6 <=? length digits)%nat then formatted ++ js "-" ++ slice 6 10 digits
    else formatted in
  formatted.

Definition isValidPhone (phone : jsstring) : bool :=
  let digits := stripNonDigits phone in
  (length digits =? 10)%nat.

(** The mask as a function of the digits, the body of [maskPhoneInput]
    after its first line. *)
Definition maskDigits (digits : jsstring) : jsstring :=
  let formatted := [] in
  let formatted :=
    if (0 <? length digits)%nat then js "(" ++ slice 0 3 digits
    else formatted in
  let formatted :=
    if (3 <=? length digits)%nat then formatted ++ js ") " ++ slice 3 6 digits
    else formatted in
  let formatted :=
    if (6 <=? length digits)%nat then formatted ++ js "-" ++ slice 6 10 digits
    else formatted in
  formatted.

Section DuplicateCheck.

(** [String.prototype.toLowerCase] of the host. *)
Variable toLowerCase : jsstring -> jsstring.

Definition isDuplicateVolunteer (volunteers : list VolunteerEntry)
    (name phone : jsstring) : bool :=
  let cleanedPhone := cleanPhone phone in
  existsb
    (fun v =>
       bool_decide (toLowerCase (trim (v_name v)) = toLowerCase (trim name))
       && bool_decide (v_phone v = cleanedPhone))
    volunteers.

End DuplicateCheck.

(** [createEmptyEvent()], with the id and the clock reading it draws. *)
Definition createEmptyEvent (newId : jsstring) (now : Z) : Event :=
  {| e_id := newId; e_details := []; e_locked := false; e_roles := ∅;
     e_createdAt := now |}.

Definition createEmptyDayState : DayState := {| events := [] |}.

Definition getDefaultRoles : list RoleDefinition :=
  [ {| r_id := js "role-1"; r_label := js "Fundraising appeal coordinator";
       r_isDefault := Some true; r_minVolunteers := 1 |};
    {| r_id := js "role-2"; r_label := js "Men's volunteer lead";
       r_isDefault := Some true; r_minVolunteers := 1 |};
    {| r_id := js "role-3"; r_label := js "Sisters' volunteer lead";
       r_isDefault := Some true; r_minVolunteers := 1 |};
    {| r_id := js "role-4"; r_label := js "Volunteers list";
       r_isDefault := Some true; r_minVolunteers := 8 |} ].

(** [event.roles[roleId] || []] *)
Definition roleVolunteers (roles : gmap jsstring (list VolunteerEntry))
    (roleId : jsstring) : list VolunteerEntry :=
  default [] (roles !! roleId).

Definition getCoverageStatus (event : Event) (role : RoleDefinition)
    : CoverageStatus :=
  let volunteers := roleVolunteers (e_roles event) (r_id role) in
  let current := Z.of_nat (length volunteers) in
  let minimum := r_minVolunteers role in
  let isMet := (current >=? minimum)%Z in
  {| current := current; minimum := minimum; isMet := isMet |}.

(** ** src/components/CalendarGrid.tsx *)

Module CalendarGrid.

(** The [useState] cells the event handlers read and write. *)
Record GridState := mkGridState {
  daysData : gmap jsstring DayState;
  selectedEvent : option Event;
  selectedEventDate : jsstring;
  addEventDate : jsstring;
  showUnlockConfirm : bool
}.

Definition setDaysData (f : gmap jsstring DayState -> gmap jsstring DayState)
    (s : GridState) : GridState :=
  {| daysData := f (daysData s); selectedEvent := selectedEvent s;
     selectedEventDate := selectedEventDate s; addEventDate := addEventDate s;
     showUnlockConfirm := showUnlockConfirm s |}.

Definition setSelectedEvent (e : option Event) (s : GridState) : GridState :=
  {| daysData := daysData s; selectedEvent := e;
     selectedEventDate := selectedEventDate s; addEventDate := addEventDate s;
     showUnlockConfirm := showUnlockConfirm s |}.

Definition setShowUnlockConfirm (b : bool) (s : GridState) : GridState :=
  {| daysData := daysData s; selectedEvent := selectedEvent s;
     selectedEventDate := selectedEventDate s; addEventDate := addEventDate s;
     showUnlockConfirm := b |}.

Definition setAddEventDate (d : jsstring) (s : GridState) : GridState :=
  {| daysData := daysData s; selectedEvent := selectedEvent s;
     selectedEventDate := selectedEventDate s; addEventDate := d;
     showUnlockConfirm := showUnlockConfirm s |}.

Definition setSelectedEventDate (d : jsstring) (s : GridState) : GridState :=
  {| daysData := daysData s; selectedEvent := selectedEvent s;
     selectedEventDate := d; addEventDate := addEventDate s;
     showUnlockConfirm := showUnlockConfirm s |}.

(** The cells as [useState] initialises them. *)
Definition initialGridState : GridState :=
  {| daysData := ∅; selectedEvent := None; selectedEventDate := [];
     addEventDate := []; showUnlockConfirm := false |}.

Definition handleEventClick (date : jsstring) (event : Event) (s : GridState)
    : GridState :=
  setSelectedEventDate date (setSelectedEvent (Some event) s).

(** The day label that [handleAddEventClick] also stores is only shown in
    the dialog title. *)
Definition handleAddEventClick (date : jsstring) (s : GridState) : GridState :=
  setAddEventDate date s.

(** [{ ...e, details }], [{ ...e, locked }] and [{ ...e, roles }] *)
Definition withDetails (e : Event) (details : jsstring) : Event :=
  {| e_id := e_id e; e_details := details; e_locked := e_locked e;
     e_roles := e_roles e; e_createdAt := e_createdAt e |}.

Definition withLocked (e : Event) (locked : bool) : Event :=
  {| e_id := e_id e; e_details := e_details e; e_locked := locked;
     e_roles := e_roles e; e_createdAt := e_createdAt e |}.

Definition withRoles (e : Event)
    (roles : gmap jsstring (list VolunteerEntry)) : Event :=
  {| e_id := e_id e; e_details := e_details e; e_locked := e_locked e;
     e_roles := roles; e_createdAt := e_createdAt e |}.

(** [events.find((e) => e.id === eventId)] *)
Definition findEvent (eventId : jsstring) (evs : list Event) : option Event :=
  List.find (fun e => bool_decide (e_id e = eventId)) evs.

Definition handleSaveNewEvent (newId : jsstring) (now : Z)
    (details : jsstring) (s : GridState) : GridState :=
  let newEvent := withLocked (withDetails (createEmptyEvent newId now) details) true in
  setDaysData
    (fun prev =>
       let dayState := default createEmptyDayState (prev !! addEventDate s) in
       <[addEventDate s := {| events := events dayState ++ [newEvent] |}]> prev)
    s.

Definition updateDetails (eventId details : jsstring) (e : Event) : Event :=
  if bool_decide (e_id e = eventId) then withDetails e details else e.

Definition handleUpdateEvent (eventId details : jsstring) (s : GridState)
    : GridState :=
  let s1 :=
    setDaysData
      (fun prev =>
         match prev !! selectedEventDate s with
         | None => prev
         | Some dayState =>
             <[selectedEventDate s :=
                 {| events := List.map (updateDetails eventId details)
                                       (events dayState) |}]> prev
         end)
      s in
  match selectedEvent s with
  | Some sel =>
      if bool_decide (e_id sel = eventId)
      then setSelectedEvent (Some (withDetails sel details)) s1
      else s1
  | None => s1
  end.

(** In the three handlers below [setSelectedEvent] is called from inside
    the [setDaysData] updater, on the event found in the rewritten list. *)
Definition handleToggleLock (eventId : jsstring) (s : GridState) : GridState :=
  match daysData s !! selectedEventDate s with
  | None => s
  | Some dayState =>
      let updatedEvents :=
        List.map
          (fun e =>
             if bool_decide (e_id e = eventId)
             then withLocked e (negb (e_locked e)) else e)
          (events dayState) in
      let s1 :=
        match findEvent eventId updatedEvents with
        | Some updatedEvent => setSelectedEvent (Some updatedEvent) s
        | None => s
        end in
      setDaysData
        (fun prev => <[selectedEventDate s := {| events := updatedEvents |}]> prev)
        s1
  end.

Definition handleConfirmUnlock (s : GridState) : GridState :=
  match selectedEvent s with
  | Some sel => handleToggleLock (e_id sel) s
  | None => s
  end.

Definition handleDeleteEvent (s : GridState) : GridState :=
  match selectedEvent s with
  | None => s
  | Some sel =>
      setSelectedEvent None
        (setDaysData
           (fun prev =>
              match prev !! selectedEventDate s with
              | None => prev
              | Some dayState =>
                  <[selectedEventDate s :=
                      {| events :=
                           List.filter
                             (fun e => negb (bool_decide (e_id e = e_id sel)))
                             (events dayState) |}]> prev
              end)
           s)
  end.

Definition handleAddVolunteer (eventId roleId : jsstring)
    (volunteer : VolunteerEntry) (s : GridState) : GridState :=
  match daysData s !! selectedEventDate s with
  | None => s
  | Some dayState =>
      let updatedEvents :=
        List.map
          (fun e =>
             if bool_decide (e_id e = eventId)
             then withRoles e
                    (<[roleId := roleVolunteers (e_roles e) roleId ++ [volunteer]]>
                       (e_roles e))
             else e)
          (events dayState) in
      let s1 :=
        match findEvent eventId updatedEvents with
        | Some updatedEvent => setSelectedEvent (Some updatedEvent) s
        | None => s
        end in
      setDaysData
        (fun prev => <[selectedEventDate s := {| events := updatedEvents |}]> prev)
        s1
  end.

Definition handleRemoveVolunteer (eventId roleId volunteerId : jsstring)
    (s : GridState) : GridState :=
  match daysData s !! selectedEventDate s with
  | None => s
  | Some dayState =>
      let updatedEvents :=
        List.map
          (fun e =>
             if bool_decide (e_id e = eventId)
             then withRoles e
                    (<[roleId :=
                         List.filter
                           (fun v => negb (bool_decide (v_id v = volunteerId)))
                           (roleVolunteers (e_roles e) roleId)]>
                       (e_roles e))
             else e)
          (events dayState) in
      let s1 :=
        match findEvent eventId updatedEvents with
        | Some updatedEvent => setSelectedEvent (Some updatedEvent) s
        | None => s
        end in
      setDaysData
        (fun prev => <[selectedEventDate s := {| events := updatedEvents |}]> prev)
        s1
  end.

(** The shape the three handlers above share, with the rewrite [f] of a
    matching event left open; the proofs go through it. *)
Definition updateSelectedDay (eventId : jsstring) (f : Event -> Event)
    (s : GridState) : GridState :=
  match daysData s !! selectedEventDate s with
  | None => s
  | Some dayState =>
      let updatedEvents :=
        List.map (fun e => if bool_decide (e_id e = eventId) then f e else e)
                 (events dayState) in
      let s1 :=
        match findEvent eventId updatedEvents with
        | Some updatedEvent => setSelectedEvent (Some updatedEvent) s
        | None => s
        end in
      setDaysData
        (fun prev => <[selectedEventDate s := {| events := updatedEvents |}]> prev)
        s1
  end.

(** *** Week navigation

    [weekStart] and [slideDirection] are cells of their own: the week
    handlers touch nothing else.  [addWeeks] and [subWeeks] are those of
    date-fns and [bounds] is computed once, when the grid mounts. *)

Inductive SlideDirection := slideLeft | slideRight.

Record NavState := mkNavState {
  weekStart : Z;
  slideDirection : SlideDirection
}.

Section Navigation.

Variables addWeeks subWeeks : Z -> Z -> Z.
Variable bounds : NavigationBounds.

Definition canGoPrev (n : NavState) : bool :=
  let prevWeek := subWeeks (weekStart n) 1 in
  canNavigateToWeek prevWeek bounds.

Definition canGoNext (n : NavState) : bool :=
  let nextWeek := addWeeks (weekStart n) 1 in
  canNavigateToWeek nextWeek bounds.

Definition handlePrevWeek (n : NavState) : NavState :=
  if canGoPrev n then
    {| weekStart := subWeeks (weekStart n) 1; slideDirection := slideRight |}
  else n.

Definition handleNextWeek (n : NavState) : NavState :=
  if canGoNext n then
    {| weekStart := addWeeks (weekStart n) 1; slideDirection := slideLeft |}
  else n.

(** [handleToday], given [getWeekStart(new Date())]. *)
Definition handleToday (todayWeekStart : Z) (n : NavState) : NavState :=
  if negb (todayWeekStart =? weekStart n)%Z then
    {| weekStart := todayWeekStart;
       slideDirection :=
         if (todayWeekStart >? weekStart n)%Z then slideLeft else slideRight |}
  else n.

End Navigation.

(** *** Roles *)

Definition handleAddRole (newId roleName : jsstring)
    (roles : list RoleDefinition) : list RoleDefinition :=
  let newRole :=
    {| r_id := newId; r_label := roleName; r_isDefault := Some false;
       r_minVolunteers := 1 |} in
  roles ++ [newRole].

(** The [onOpenChange] handed to the add-event dialog:
    [(open) => !open && setAddEventDate('')]. *)
Definition addEventOnOpenChange (open : bool) (s : GridState) : GridState :=
  if negb open then setAddEventDate [] s else s.

End CalendarGrid.

(** ** EventDetailModal (the third component of src/components/RoleRow.tsx) *)

Module EventDetailModal.
Import CalendarGrid.

(** The lock button of the modal.  [event] is the [selectedEvent] prop and
    [editedDetails] the text of the modal's textarea; the modal renders
    nothing, so has no button, when no event is selected. *)
Definition handleToggleLockClick (editedDetails : jsstring) (s : GridState)
    : GridState :=
  match selectedEvent s with
  | None => s
  | Some event =>
      if e_locked event then
        setShowUnlockConfirm true s
      else
        let trimmedDetails := trim editedDetails in
        if isEmpty trimmedDetails then s
        else handleToggleLock (e_id event)
               (handleUpdateEvent (e_id event) trimmedDetails s)
  end.


(** The per-role signup forms of the modal. *)
Record AddFormState := mkAddFormState {
  f_roleId : option jsstring;
  f_name : jsstring;
  f_phone : jsstring;
  f_error : jsstring
}.

Record DetailState := mkDetailState {
  addForms : gmap jsstring AddFormState;
  grid : GridState
}.

Definition setAddForms
    (f : gmap jsstring AddFormState -> gmap jsstring AddFormState)
    (m : DetailState) : DetailState :=
  {| addForms := f (addForms m); grid := grid m |}.

Definition openAddForm (roleId : jsstring) (m : DetailState) : DetailState :=
  setAddForms
    (fun prev =>
       <[roleId := {| f_roleId := Some roleId; f_name := []; f_phone := [];
                      f_error := [] |}]> prev)
    m.

Definition closeAddForm (roleId : jsstring) (m : DetailState) : DetailState :=
  setAddForms (fun prev => delete roleId prev) m.

(** [{ ...prev[roleId], error }] for a form that is open. *)
Definition withError (form : AddFormState) (msg : string) : AddFormState :=
  {| f_roleId := f_roleId form; f_name := f_name form;
     f_phone := f_phone form; f_error := js msg |}.

Section DetailSignup.

Variable toLowerCase : jsstring -> jsstring.

(** [handleAddVolunteer] of the modal; [event] is the [selectedEvent] prop
    (the modal renders nothing without one) and [onAddVolunteer] is
    [CalendarGrid.handleAddVolunteer]. *)
Definition handleAddVolunteer (newId roleId : jsstring) (m : DetailState)
    : DetailState :=
  match selectedEvent (grid m) with
  | None => m
  | Some event =>
      match addForms m !! roleId with
      | None => m
      | Some form =>
          let name := trim (f_name form) in
          let phone := f_phone form in
          if isEmpty name then
            setAddForms
              (fun prev => <[roleId := withError form "Name is required"]> prev)
              m
          else if negb (isValidPhone phone) then
            setAddForms
              (fun prev =>
                 <[roleId := withError form "Valid 10-digit phone required"]> prev)
              m
          else
            let existingVolunteers := roleVolunteers (e_roles event) roleId in
            if isDuplicateVolunteer toLowerCase existingVolunteers name phone then
              setAddForms
                (fun prev =>
                   <[roleId :=
                       withError form "Already signed up for this role"]> prev)
                m
            else
              let volunteer :=
                {| v_id := newId; v_name := name; v_phone := cleanPhone phone |} in
              closeAddForm roleId
                {| addForms := addForms m;
                   grid := CalendarGrid.handleAddVolunteer (e_id event) roleId
                             volunteer (grid m) |}
      end
  end.

End DetailSignup.

End EventDetailModal.

(** ** src/components/VolunteerSignupModal.tsx *)

Module VolunteerSignupModal.

Record InputState := mkInputState {
  i_name : jsstring;
  i_phone : jsstring;
  i_error : jsstring
}.

(** A [Partial<InputState>]: the fields present in an update. *)
Record InputUpdate := mkInputUpdate {
  u_name : option jsstring;
  u_phone : option jsstring;
  u_error : option jsstring
}.

Definition applyUpdate (st : InputState) (u : InputUpdate) : InputState :=
  {| i_name := default (i_name st) (u_name u);
     i_phone := default (i_phone st) (u_phone u);
     i_error := default (i_error st) (u_error u) |}.

Section SignupModal.

Variable toLowerCase : jsstring -> jsstring.

(** The state of the parent component and its [onAddVolunteer] prop. *)
Variable Parent : Type.
Variable onAddVolunteer :
  jsstring -> jsstring -> VolunteerEntry -> Parent -> Parent.

Record ModalState := mkModalState {
  inputs : gmap jsstring (gmap jsstring InputState);
  parent : Parent
}.

Definition getInputState (inp : gmap jsstring (gmap jsstring InputState))
    (eventId roleId : jsstring) : InputState :=
  match inp !! eventId with
  | Some perRole =>
      default {| i_name := []; i_phone := []; i_error := [] |}
              (perRole !! roleId)
  | None => {| i_name := []; i_phone := []; i_error := [] |}
  end.

Definition updateInput (eventId roleId : jsstring) (updates : InputUpdate)
    (m : ModalState) : ModalState :=
  {| inputs :=
       <[eventId :=
           <[roleId := applyUpdate (getInputState (inputs m) eventId roleId)
                                   updates]>
             (default ∅ (inputs m !! eventId))]>
         (inputs m);
     parent := parent m |}.

Definition handlePhoneChange (eventId roleId value : jsstring)
    (m : ModalState) : ModalState :=
  let masked := maskPhoneInput value in
  updateInput eventId roleId
    {| u_name := None; u_phone := Some masked; u_error := Some [] |} m.

Definition errorOnly (msg : string) : InputUpdate :=
  {| u_name := None; u_phone := None; u_error := Some (js msg) |}.

Definition handleAddVolunteer (newId : jsstring)
    (eventId roleId : jsstring) (existingVolunteers : list VolunteerEntry)
    (m : ModalState) : ModalState :=
  let state := getInputState (inputs m) eventId roleId in
  let name := trim (i_name state) in
  let phone := i_phone state in
  if isEmpty name then
    updateInput eventId roleId (errorOnly "Name is required") m
  else if negb (isValidPhone phone) then
    updateInput eventId roleId
      (errorOnly "Please enter a valid 10-digit phone number") m
  else if isDuplicateVolunteer toLowerCase existingVolunteers name phone then
    updateInput eventId roleId
      (errorOnly "You are already signed up for this role") m
  else
    let volunteer :=
      {| v_id := newId; v_name := name; v_phone := cleanPhone phone |} in
    let m1 :=
      {| inputs := inputs m;
         parent := onAddVolunteer eventId roleId volunteer (parent m) |} in
    updateInput eventId roleId
      {| u_name := Some []; u_phone := Some []; u_error := Some [] |} m1.

End SignupModal.

Arguments inputs {Parent} _.
Arguments parent {Parent} _.
Arguments mkModalState {Parent} _ _.

(** The three messages [handleAddVolunteer] can show. *)
Definition signupErrors : list jsstring :=
  [ js "Name is required";
    js "Please enter a valid 10-digit phone number";
    js "You are already signed up for this role" ].

End VolunteerSignupModal.

(** ** AddEventModal (src/unnamed/part_002)

    The effect that clears the fields once the dialog has closed runs after
    the handler and is not part of it. *)

Module AddEventModal.

Section AddEvent.

(** The parent's state and the [onSave] and [onOpenChange] props. *)
Variable Parent : Type.
Variable onSave : jsstring -> Parent -> Parent.
Variable onOpenChange : bool -> Parent -> Parent.

Record State := mkState {
  details : jsstring;
  error : jsstring;
  parent : Parent
}.

Definition handleSave (m : State) : State :=
  let trimmedDetails := trim (details m) in
  if isEmpty trimmedDetails then
    {| details := details m; error := js "Event details are required";
       parent := parent m |}
  else
    {| details := details m; error := error m;
       parent := onOpenChange false (onSave trimmedDetails (parent m)) |}.

End AddEvent.

Arguments details {Parent} _.
Arguments error {Parent} _.
Arguments parent {Parent} _.
Arguments mkState {Parent} _ _ _.

End AddEventModal.

(** ** src/components/AddRoleDialog.tsx *)

Module AddRoleDialog.

Section AddRole.

Variable Parent : Type.
Variable onAddRole : jsstring -> Parent -> Parent.
Variable onOpenChange : bool -> Parent -> Parent.

Record State := mkState {
  roleName : jsstring;
  error : jsstring;
  parent : Parent
}.

Definition handleAdd (m : State) : State :=
  let trimmedName := trim (roleName m) in
  if isEmpty trimmedName then
    {| roleName := roleName m; error := js "Role name is required";
       parent := parent m |}
  else
    {| roleName := roleName m; error := error m;
       parent := onOpenChange false (onAddRole trimmedName (parent m)) |}.

End AddRole.

Arguments roleName {Parent} _.
Arguments error {Parent} _.
Arguments parent {Parent} _.
Arguments mkState {Parent} _ _ _.

End AddRoleDialog.

(** ** DayCard (src/unnamed/part_001) *)

Module DayCard.

Definition MAX_VISIBLE : nat := 3.

(** [showAll ? events : events.slice(0, MAX_VISIBLE)] *)
Definition visibleEvents (showAll : bool) (evs : list Event) : list Event :=
  if showAll then evs else take MAX_VISIBLE evs.

Definition hiddenCount (evs : list Event) : Z :=
  (Z.of_nat (length evs) - Z.of_nat MAX_VISIBLE)%Z.

(** Whether the "+N more" button is rendered. *)
Definition showsMore (showAll : bool) (evs : list Event) : bool :=
  (hiddenCount evs >? 0)%Z && negb showAll.

(** Whether the "Show less" button is rendered. *)
Definition showsLess (showAll : bool) (evs : list Event) : bool :=
  showAll && (MAX_VISIBLE <? length evs)%nat.

End DayCard.

(** ** Presses of the week buttons *)

Inductive WeekButton := PrevWeek | NextWeek.

Definition pressWeekButton (addWeeks subWeeks : Z -> Z -> Z)
    (bounds : NavigationBounds) (n : CalendarGrid.NavState) (b : WeekButton)
    : CalendarGrid.NavState :=
  match b with
  | PrevWeek => CalendarGrid.handlePrevWeek subWeeks bounds n
  | NextWeek => CalendarGrid.handleNextWeek addWeeks bounds n
  end.

(** ** The volunteer count of an event card

    [Object.values(event.roles).reduce((sum, volunteers) => sum +
    volunteers.length, 0)], as the signup modal computes it. *)
Definition totalVolunteers (event : Event) : nat :=
  map_fold (fun _ volunteers sum => (sum + length volunteers)%nat) 0%nat
           (e_roles event).

(** The key on which [isDuplicateVolunteer] compares an entry. *)
Definition duplicateKey (toLowerCase : jsstring -> jsstring)
    (v : VolunteerEntry) : jsstring * jsstring :=
  (toLowerCase (trim (v_name v)), v_phone v).

(** [selectedEvent] is the event its id finds on the selected day. *)
Definition inSync (s : CalendarGrid.GridState) : Prop :=
  match CalendarGrid.selectedEvent s with
  | None => True
  | Some ev =>
      exists dayState,
        CalendarGrid.daysData s !! CalendarGrid.selectedEventDate s
        = Some dayState
        /\ CalendarGrid.findEvent (e_id ev) (events dayState) = Some ev
  end.

Import CalendarGrid EventDetailModal VolunteerSignupModal.

(** ** A session used in the examples

    One event is created on a Monday and opened in the detail modal. *)

Definition sampleDate : jsstring := js "2026-02-23".

Definition sampleEvent : Event :=
  {| e_id := js "e-1"; e_details := js "Jumuah Appeal"; e_locked := true;
     e_roles := ∅; e_createdAt := 0 |}.

Definition sampleState : GridState :=
  handleEventClick sampleDate sampleEvent
    (handleSaveNewEvent (js "e-1") 0 (js "Jumuah Appeal")
       (handleAddEventClick sampleDate initialGridState)).

(** ** A session with two events

    A second event is created on the same day, opened in the detail modal
    and unlocked through the confirmation dialog: the day then holds the
    locked first event and the unlocked second one, which is displayed. *)

Definition secondEvent : Event :=
  {| e_id := js "e-2"; e_details := js "Iftar"; e_locked := true;
     e_roles := ∅; e_createdAt := 1 |}.

Definition twoEventState : GridState :=
  handleConfirmUnlock
    (handleEventClick sampleDate secondEvent
       (handleSaveNewEvent (js "e-2") 1 (js "Iftar")
          (handleAddEventClick sampleDate sampleState))).

(** The sample session after "Ali" has signed up for the volunteers list. *)
Definition rosterState : GridState :=
  CalendarGrid.handleAddVolunteer (js "e-1") (js "role-4")
    {| v_id := js "v-1"; v_name := js "Ali"; v_phone := js "3125550199" |}
    sampleState.

(** The event on display in [rosterState], and the form of the detail
    modal filled in by a second volunteer. *)
Definition rosterEvent : Event :=
  withRoles sampleEvent
    {[ js "role-4" :=
         [ {| v_id := js "v-1"; v_name := js "Ali";
              v_phone := js "3125550199" |} ] ]}.

Definition omarForm : AddFormState :=
  {| f_roleId := Some (js "role-4"); f_name := js " Omar ";
     f_phone := js "(312) 555-0100"; f_error := [] |}.

(** ** What the user interface can do to the grid

    Within a day no two events carry the same id. *)
Definition uniqueIds (s : GridState) : Prop :=
  forall date dayState,
    daysData s !! date = Some dayState ->
    NoDup (List.map e_id (events dayState)).

(** [generateId()] returned an id that no event carries. *)
Definition idUnused (newId : jsstring) (s : GridState) : Prop :=
  forall date dayState e,
    daysData s !! date = Some dayState -> In e (events dayState) ->
    e_id e <> newId.

(** One user action on the grid, as the components are wired in
    [CalendarGrid]: the day cards (add-event button, click on an event),
    the add-event dialog (save, cancel), the detail modal (close, lock
    button, signup, removal; [onUpdateEvent] and [onToggleLock] are called
    by the lock button only) and the two confirmation dialogs. *)
Inductive uiStep : GridState -> GridState -> Prop :=
  | step_addEventClick s date :
      uiStep s (handleAddEventClick date s)
  | step_saveNewEvent s newId now details :
      idUnused newId s ->
      uiStep s (addEventOnOpenChange false
                  (handleSaveNewEvent newId now details s))
  | step_cancelAddEvent s :
      uiStep s (addEventOnOpenChange false s)
  | step_eventClick s date dayState event :
      daysData s !! date = Some dayState -> In event (events dayState) ->
      uiStep s (handleEventClick date event s)
  | step_closeModal s :
      uiStep s (setSelectedEvent None s)
  | step_lockClick s editedDetails :
      uiStep s (handleToggleLockClick editedDetails s)
  | step_confirmUnlock s :
      uiStep s (setShowUnlockConfirm false (handleConfirmUnlock s))
  | step_cancelUnlock s :
      uiStep s (setShowUnlockConfirm false s)
  | step_confirmDelete s :
      uiStep s (handleDeleteEvent s)
  | step_addVolunteer s event roleId volunteer :
      selectedEvent s = Some event ->
      uiStep s (CalendarGrid.handleAddVolunteer (e_id event) roleId volunteer s)
  | step_removeVolunteer s event roleId volunteerId :
      selectedEvent s = Some event ->
      uiStep s (handleRemoveVolunteer (e_id event) roleId volunteerId s).

Inductive reachable : GridState -> Prop :=
  | reachable_initial : reachable initialGridState
  | reachable_step s s' : reachable s -> uiStep s s' -> reachable s'.

(** * Properties *)

(** ** Digits and slices *)

Lemma stripNonDigits_app (s t : jsstring) :
  stripNonDigits (s ++ t) = stripNonDigits s ++ stripNonDigits t.
Proof. apply List.filter_app. Qed.

Lemma stripNonDigits_digits (s : jsstring) :
  forallb isDigit s = true -> stripNonDigits s = s.
Proof.
  induction s as [|c s IH]; simpl; [reflexivity|].
  intros H. apply andb_prop in H as [Hc Hs].
  rewrite Hc. f_equal. auto.
Qed.

Lemma forallb_isDigit_strip (s : jsstring) :
  forallb isDigit (stripNonDigits s) = true.
Proof.
  induction s as [|c s IH]; simpl; [reflexivity|].
  destruct (isDigit c) eqn:Hc; simpl; [rewrite Hc|]; auto.
Qed.

Lemma forallb_take {A} (p : A -> bool) n (l : list A) :
  forallb p l = true -> forallb p (take n l) = true.
Proof.
  revert n. induction l as [|x l IH]; intros [|n]; simpl; auto.
  intros H. apply andb_prop in H as [Hx Hl]. rewrite Hx. simpl. auto.
Qed.

Lemma forallb_drop {A} (p : A -> bool) n (l : list A) :
  forallb p l = true -> forallb p (drop n l) = true.
Proof.
  revert n. induction l as [|x l IH]; intros [|n]; simpl; auto.
  intros H. apply andb_prop in H as [_ Hl]. auto.
Qed.

Lemma forallb_slice a b (s : jsstring) :
  forallb isDigit s = true -> forallb isDigit (slice a b s) = true.
Proof. intros H. unfold slice. by apply forallb_take, forallb_drop. Qed.

Lemma stripNonDigits_idem (s : jsstring) :
  stripNonDigits (stripNonDigits s) = stripNonDigits s.
Proof. apply stripNonDigits_digits, forallb_isDigit_strip. Qed.

(** The three slices of the mask concatenate to the first ten digits. *)
Lemma slices_take_10 (d : jsstring) :
  slice 0 3 d ++ slice 3 6 d ++ slice 6 10 d = take 10 d.
Proof.
  unfold slice. simpl.
  change 10%nat with (3 + (3 + 4))%nat.
  rewrite <- (take_take_drop d 3 (3 + 4)).
  rewrite <- (take_take_drop (drop 3 d) 3 4).
  by rewrite drop_drop.
Qed.

Lemma maskPhoneInput_full (s : jsstring) :
  (10 <= length (stripNonDigits s))%nat ->
  maskPhoneInput s =
    js "(" ++ slice 0 3 (stripNonDigits s) ++ js ") "
      ++ slice 3 6 (stripNonDigits s) ++ js "-"
      ++ slice 6 10 (stripNonDigits s).
Proof.
  intros Hlen. unfold maskPhoneInput.
  destruct (Nat.ltb_spec 0 (length (stripNonDigits s))); [|lia].
  destruct (Nat.leb_spec 3 (length (stripNonDigits s))); [|lia].
  destruct (Nat.leb_spec 6 (length (stripNonDigits s))); [|lia].
  by rewrite <- !app_assoc.
Qed.

Lemma stripNonDigits_mask (d : jsstring) :
  forallb isDigit d = true ->
  stripNonDigits
    (js "(" ++ slice 0 3 d ++ js ") " ++ slice 3 6 d ++ js "-" ++ slice 6 10 d)
  = take 10 d.
Proof.
  intros Hd. rewrite !stripNonDigits_app.
  rewrite !(stripNonDigits_digits (slice _ _ d)) by by apply forallb_slice.
  change (stripNonDigits (js "(")) with (@nil N).
  change (stripNonDigits (js ") ")) with (@nil N).
  change (stripNonDigits (js "-")) with (@nil N).
  simpl app. apply slices_take_10.
Qed.

(** ** Phone utilities *)

(** C5. Round trip of the mask: when [s] holds at least ten digits,
    cleaning the masked input gives the first ten digits of [s], that is of
    [s] with every non-digit removed. *)
Theorem cleanPhone_maskPhoneInput (s : jsstring) :
  (10 <= length (stripNonDigits s))%nat ->
  cleanPhone (maskPhoneInput s) = take 10 (stripNonDigits s).
Proof.
  intros Hlen. rewrite maskPhoneInput_full by assumption.
  unfold cleanPhone.
  rewrite stripNonDigits_mask by apply forallb_isDigit_strip.
  rewrite length_take_le by assumption. reflexivity.
Qed.

Example cleanPhone_maskPhoneInput_witness :
  cleanPhone (maskPhoneInput (js "+1 (312) 555-0199 ext 7"))
  = take 10 (stripNonDigits (js "+1 (312) 555-0199 ext 7")).
Proof. apply cleanPhone_maskPhoneInput. vm_compute. lia. Defined.

(** [formatPhone] on ten digits, written out unit by unit. *)
Lemma formatPhone_ten_digits (d0 d1 d2 d3 d4 d5 d6 d7 d8 d9 : N) :
  forallb isDigit [d0; d1; d2; d3; d4; d5; d6; d7; d8; d9] = true ->
  formatPhone [d0; d1; d2; d3; d4; d5; d6; d7; d8; d9]
  = js "(" ++ [d0; d1; d2] ++ js ") " ++ [d3; d4; d5] ++ js "-"
      ++ [d6; d7; d8; d9].
Proof.
  intros Hd. unfold formatPhone.
  rewrite stripNonDigits_digits by assumption. reflexivity.
Qed.

Lemma formatPhone_passthrough (s : jsstring) :
  length (stripNonDigits s) <> 10%nat -> formatPhone s = s.
Proof.
  intros Hlen. unfold formatPhone.
  destruct (Nat.eqb_spec (length (stripNonDigits s)) 10); [lia|reflexivity].
Qed.

(** The claim C6 as written fails: a string that is not ten digits, but
    holds ten digits among other characters, is rendered anew. *)
Lemma formatPhone_not_ten_digits_changed :
  isTenDigitString (js "555-123-4567") = false
  /\ formatPhone (js "555-123-4567") = js "(555) 123-4567"
  /\ formatPhone (js "555-123-4567") <> js "555-123-4567".
Proof. split; [|split]; [reflexivity|reflexivity|discriminate]. Qed.

(** C6 (amended). [formatPhone] renders a string of exactly ten digits as
    "(XXX) XXX-XXXX" with those digits in order; more generally it renders
    from its ten digits any input that holds exactly ten digits once the
    non-digits are removed; and it returns unchanged every input whose
    digits do not number exactly ten. *)
Theorem formatPhone_spec :
  (forall d0 d1 d2 d3 d4 d5 d6 d7 d8 d9 : N,
      isTenDigitString [d0; d1; d2; d3; d4; d5; d6; d7; d8; d9] = true ->
      formatPhone [d0; d1; d2; d3; d4; d5; d6; d7; d8; d9]
      = js "(" ++ [d0; d1; d2] ++ js ") " ++ [d3; d4; d5] ++ js "-"
          ++ [d6; d7; d8; d9])
  /\ (forall s : jsstring,
         length (stripNonDigits s) = 10%nat ->
         formatPhone s = formatPhone (stripNonDigits s)
         /\ isTenDigitString (stripNonDigits s) = true)
  /\ (forall s : jsstring,
         length (stripNonDigits s) <> 10%nat -> formatPhone s = s).
Proof.
  split; [|split].
  - intros d0 d1 d2 d3 d4 d5 d6 d7 d8 d9 H.
    apply formatPhone_ten_digits.
    unfold isTenDigitString in H. by apply andb_prop in H as [H _].
  - intros s Hlen. split.
    + unfold formatPhone. rewrite stripNonDigits_idem, Hlen. reflexivity.
    + unfold isTenDigitString. rewrite forallb_isDigit_strip, Hlen. reflexivity.
  - apply formatPhone_passthrough.
Qed.

Example formatPhone_spec_witness :
  formatPhone (js "5551234567") = js "(555) 123-4567"
  /\ formatPhone (js "555.123.4567") = formatPhone (js "5551234567")
  /\ formatPhone (js "555-12") = js "555-12".
Proof.
  destruct formatPhone_spec as (Hten & Hmixed & Hpass).
  split; [|split].
  - apply (Hten 53 53 53 49 50 51 52 53 54 55)%N. reflexivity.
  - apply (Hmixed (js "555.123.4567")). reflexivity.
  - apply (Hpass (js "555-12")). vm_compute. lia.
Defined.

(** ** Week navigation *)

(** C7. [canNavigateToWeek] is the closed-interval test
    [minDate <= weekStart <= maxDate]: on an interval that is not empty both
    bounds are navigable, and nothing before [minDate] or after [maxDate]
    is. *)
Theorem canNavigateToWeek_closed_interval (weekStart : Z)
    (bounds : NavigationBounds) :
  (canNavigateToWeek weekStart bounds = true
   <-> (minDate bounds <= weekStart <= maxDate bounds)%Z)
  /\ ((minDate bounds <= maxDate bounds)%Z ->
      canNavigateToWeek (minDate bounds) bounds = true
      /\ canNavigateToWeek (maxDate bounds) bounds = true)
  /\ ((weekStart < minDate bounds)%Z ->
      canNavigateToWeek weekStart bounds = false)
  /\ ((maxDate bounds < weekStart)%Z ->
      canNavigateToWeek weekStart bounds = false).
Proof.
  assert (Hspec : forall w,
            canNavigateToWeek w bounds = true
            <-> (minDate bounds <= w <= maxDate bounds)%Z).
  { intros w. unfold canNavigateToWeek, isBefore, isAfter.
    rewrite Z.gtb_ltb.
    destruct (Z.ltb_spec w (minDate bounds));
      destruct (Z.ltb_spec (maxDate bounds) w); simpl;
      split; intros; try discriminate; try reflexivity; lia. }
  split; [apply Hspec|].
  split; [intros; split; apply Hspec; lia|].
  split; intros Hout;
    destruct (canNavigateToWeek weekStart bounds) eqn:Hnav; try reflexivity;
    apply Hspec in Hnav; lia.
Qed.

Example canNavigateToWeek_closed_interval_witness :
  canNavigateToWeek 100 {| minDate := 100; maxDate := 200 |} = true
  /\ canNavigateToWeek 200 {| minDate := 100; maxDate := 200 |} = true
  /\ canNavigateToWeek 99 {| minDate := 100; maxDate := 200 |} = false
  /\ canNavigateToWeek 201 {| minDate := 100; maxDate := 200 |} = false.
Proof.
  pose proof (canNavigateToWeek_closed_interval 99
                {| minDate := 100; maxDate := 200 |}) as (_ & Hb & Hlo & _).
  pose proof (canNavigateToWeek_closed_interval 201
                {| minDate := 100; maxDate := 200 |}) as (_ & _ & _ & Hhi).
  simpl in Hb, Hlo, Hhi.
  destruct Hb as [Hmin Hmax]; [lia|].
  split; [exact Hmin|].
  split; [exact Hmax|].
  split; [apply Hlo; lia | apply Hhi; lia].
Defined.

(** ** Trimming *)

Lemma trimStart_cleanHead (s : jsstring) : cleanHead (trimStart s).
Proof.
  induction s as [|c s IH]; simpl; [exact I|].
  destruct (isWhiteSpace c) eqn:Hc; [exact IH|exact Hc].
Qed.

Lemma trimStart_id (s : jsstring) : cleanHead s -> trimStart s = s.
Proof. destruct s as [|c s]; simpl; [reflexivity|]. by intros ->. Qed.

Lemma trimStart_suffix (s : jsstring) : exists w, s = w ++ trimStart s.
Proof.
  induction s as [|c s [w IH]]; [by exists []|]. simpl.
  destruct (isWhiteSpace c).
  - exists (c :: w). simpl. by f_equal.
  - by exists [].
Qed.

Lemma trimEnd_prefix (s : jsstring) : exists w, s = trimEnd s ++ w.
Proof.
  destruct (trimStart_suffix (rev s)) as [w Hw].
  exists (rev w). unfold trimEnd.
  rewrite <- rev_app_distr, <- Hw. by rewrite rev_involutive.
Qed.

Lemma trimEnd_cleanHead (s : jsstring) : cleanHead s -> cleanHead (trimEnd s).
Proof.
  intros Hs. destruct (trimEnd_prefix s) as [w Hw].
  destruct (trimEnd s) as [|c t]; [exact I|].
  rewrite Hw in Hs. exact Hs.
Qed.

Lemma trimEnd_cleanLast (s : jsstring) : cleanHead (rev (trimEnd s)).
Proof. unfold trimEnd. rewrite rev_involutive. apply trimStart_cleanHead. Qed.

Lemma trimEnd_id (s : jsstring) : cleanHead (rev s) -> trimEnd s = s.
Proof.
  intros Hs. unfold trimEnd. rewrite trimStart_id by assumption.
  apply rev_involutive.
Qed.

Lemma trim_idempotent (s : jsstring) : trim (trim s) = trim s.
Proof.
  unfold trim at 1.
  rewrite (trimStart_id (trim s)).
  - apply trimEnd_id. apply trimEnd_cleanLast.
  - apply trimEnd_cleanHead, trimStart_cleanHead.
Qed.

(** ** Duplicate detection *)

Section DuplicateFacts.

Variable toLowerCase : jsstring -> jsstring.

Lemma isDuplicateVolunteer_iff (volunteers : list VolunteerEntry)
    (name phone : jsstring) :
  isDuplicateVolunteer toLowerCase volunteers name phone = true
  <-> exists v, In v volunteers
                /\ toLowerCase (trim (v_name v)) = toLowerCase (trim name)
                /\ v_phone v = cleanPhone phone.
Proof.
  unfold isDuplicateVolunteer. rewrite existsb_exists.
  split; intros (v & Hin & Hv); exists v; (split; [exact Hin|]).
  - apply andb_prop in Hv as [Hn Hp].
    apply bool_decide_eq_true in Hn, Hp. by split.
  - destruct Hv as [Hn Hp].
    apply andb_true_intro. by split; apply bool_decide_eq_true.
Qed.

Lemma isDuplicateVolunteer_trim (volunteers : list VolunteerEntry)
    (name phone : jsstring) :
  isDuplicateVolunteer toLowerCase volunteers (trim name) phone
  = isDuplicateVolunteer toLowerCase volunteers name phone.
Proof. unfold isDuplicateVolunteer. by rewrite trim_idempotent. Qed.

(** When the stored phones are the ten-digit strings of the data model,
    comparing the stored phone with the cleaned candidate is comparing
    the two cleaned phones. *)
Lemma stored_phone_cleaned (v : VolunteerEntry) (phone : jsstring) :
  isTenDigitString (v_phone v) = true ->
  v_phone v = cleanPhone phone <-> cleanPhone (v_phone v) = cleanPhone phone.
Proof.
  intros Hten. unfold isTenDigitString in Hten.
  apply andb_prop in Hten as [Hd Hl].
  assert (cleanPhone (v_phone v) = v_phone v) as ->; [|done].
  unfold cleanPhone. rewrite stripNonDigits_digits by assumption.
  by rewrite Hl.
Qed.

End DuplicateFacts.

(** C3. [isDuplicateVolunteer] answers true exactly when some entry of the
    list has a name equal to the candidate's after trimming and
    lower-casing both, and a stored phone identical to the candidate's
    cleaned, digits-only phone; when the stored phones are ten-digit
    strings, as the signup stores them, that is the same as the two
    cleaned phones being identical.  With a host [toLowerCase] that lower-cases Basic Latin text unit
    by unit, "jane doe" with "(555) 123-4567" is a duplicate of the entry
    "Jane Doe", "5551234567". *)
Theorem isDuplicateVolunteer_spec (toLowerCase : jsstring -> jsstring) :
  (forall (volunteers : list VolunteerEntry) (name phone : jsstring),
      isDuplicateVolunteer toLowerCase volunteers name phone = true
      <-> exists v, In v volunteers
                    /\ toLowerCase (trim (v_name v)) = toLowerCase (trim name)
                    /\ v_phone v = cleanPhone phone)
  /\ (forall (volunteers : list VolunteerEntry) (name phone : jsstring),
         (forall v, In v volunteers -> isTenDigitString (v_phone v) = true) ->
         isDuplicateVolunteer toLowerCase volunteers name phone = true
         <-> exists v, In v volunteers
                       /\ toLowerCase (trim (v_name v))
                          = toLowerCase (trim name)
                       /\ cleanPhone (v_phone v) = cleanPhone phone)
  /\ ((forall s, forallb isBasicLatin s = true ->
                 toLowerCase s = asciiLowerCase s) ->
      forall vid : jsstring,
        isDuplicateVolunteer toLowerCase
          [ {| v_id := vid; v_name := js "Jane Doe";
               v_phone := js "5551234567" |} ]
          (js "jane doe") (js "(555) 123-4567") = true).
Proof.
  split; [apply isDuplicateVolunteer_iff|].
  split.
  { intros volunteers name phone Hstored.
    rewrite isDuplicateVolunteer_iff.
    split; intros (v & Hin & Hname & Hphone); exists v;
      (split; [exact Hin|split; [exact Hname|]]);
      by apply stored_phone_cleaned; [apply Hstored|]. }
  intros Hlow vid. apply isDuplicateVolunteer_iff.
  eexists. split; [by left|]. simpl. split; [|reflexivity].
  rewrite !Hlow by reflexivity. reflexivity.
Qed.

Example isDuplicateVolunteer_spec_witness :
  isDuplicateVolunteer asciiLowerCase
    [ {| v_id := js "v-1"; v_name := js "Jane Doe";
         v_phone := js "5551234567" |} ]
    (js "jane doe") (js "(555) 123-4567") = true.
Proof.
  apply (proj2 (proj2 (isDuplicateVolunteer_spec asciiLowerCase))).
  intros s _. reflexivity.
Defined.

(** ** Coverage *)

(** C10. Coverage is computed for roles the event has no entry for: the
    missing entry counts as an empty list, so the status is
    [{current: 0, minimum: role.minVolunteers, isMet: 0 >= minimum}]. *)
Theorem getCoverageStatus_missing_role (event : Event) (role : RoleDefinition) :
  e_roles event !! r_id role = None ->
  getCoverageStatus event role
  = {| current := 0; minimum := r_minVolunteers role;
       isMet := (0 >=? r_minVolunteers role)%Z |}.
Proof.
  intros Hnone. unfold getCoverageStatus, roleVolunteers.
  rewrite Hnone. reflexivity.
Qed.

Example getCoverageStatus_missing_role_witness :
  getCoverageStatus
    (withLocked (withDetails (createEmptyEvent (js "e-1") 0) (js "Jumuah Appeal")) true)
    {| r_id := js "role-4"; r_label := js "Volunteers list";
       r_isDefault := Some true; r_minVolunteers := 8 |}
  = {| current := 0; minimum := 8; isMet := false |}.
Proof.
  apply (getCoverageStatus_missing_role
           (withLocked (withDetails (createEmptyEvent (js "e-1") 0)
                                    (js "Jumuah Appeal")) true)
           {| r_id := js "role-4"; r_label := js "Volunteers list";
              r_isDefault := Some true; r_minVolunteers := 8 |}).
  reflexivity.
Defined.

(** ** Event creation *)

(** C4. Whatever the details string, [handleSaveNewEvent] appends to the
    day being added to an event that is locked, carries exactly the
    supplied details and has an empty roles mapping; the events already on
    that day are kept in front of it and the other days are untouched. *)
Theorem handleSaveNewEvent_creates_locked (newId : jsstring) (now : Z)
    (details : jsstring) (s : GridState) :
  let s' := handleSaveNewEvent newId now details s in
  let before :=
    events (default createEmptyDayState (daysData s !! addEventDate s)) in
  exists newEvent,
    daysData s' !! addEventDate s = Some {| events := before ++ [newEvent] |}
    /\ e_locked newEvent = true
    /\ e_details newEvent = details
    /\ e_roles newEvent = ∅
    /\ e_id newEvent = newId
    /\ e_createdAt newEvent = now
    /\ (forall d, d <> addEventDate s -> daysData s' !! d = daysData s !! d).
Proof.
  simpl. eexists. split; [apply lookup_insert_eq|].
  repeat split. intros d Hd. by apply lookup_insert_ne.
Qed.

(** ** Rewriting the events of the selected day *)

Lemma handleToggleLock_shape (eventId : jsstring) (s : GridState) :
  handleToggleLock eventId s
  = updateSelectedDay eventId (fun e => withLocked e (negb (e_locked e))) s.
Proof. reflexivity. Qed.

Lemma handleRemoveVolunteer_shape (eventId roleId volunteerId : jsstring)
    (s : GridState) :
  handleRemoveVolunteer eventId roleId volunteerId s
  = updateSelectedDay eventId
      (fun e =>
         withRoles e
           (<[roleId :=
                List.filter
                  (fun v => negb (bool_decide (v_id v = volunteerId)))
                  (roleVolunteers (e_roles e) roleId)]>
              (e_roles e)))
      s.
Proof. reflexivity. Qed.

Lemma findEvent_Some (eventId : jsstring) (evs : list Event) (e : Event) :
  findEvent eventId evs = Some e -> In e evs /\ e_id e = eventId.
Proof.
  unfold findEvent. intros H. apply find_some in H as [Hin Hid].
  by apply bool_decide_eq_true in Hid.
Qed.

Lemma findEvent_present (eventId : jsstring) (evs : list Event) :
  (exists e, In e evs /\ e_id e = eventId) ->
  exists e, findEvent eventId evs = Some e.
Proof.
  intros (e & Hin & Hid). unfold findEvent.
  destruct (find _ evs) as [e'|] eqn:Hf; [by exists e'|].
  apply (find_none _ _ Hf) in Hin.
  apply bool_decide_eq_false in Hin. contradiction.
Qed.

Lemma updateSelectedDay_None (eventId : jsstring) (f : Event -> Event)
    (s : GridState) :
  daysData s !! selectedEventDate s = None ->
  updateSelectedDay eventId f s = s.
Proof. intros H. unfold updateSelectedDay. by rewrite H. Qed.

Lemma updateSelectedDay_daysData (eventId : jsstring) (f : Event -> Event)
    (s : GridState) (dayState : DayState) :
  daysData s !! selectedEventDate s = Some dayState ->
  daysData (updateSelectedDay eventId f s)
  = <[selectedEventDate s :=
        {| events :=
             List.map (fun e => if bool_decide (e_id e = eventId) then f e else e)
                      (events dayState) |}]> (daysData s).
Proof.
  intros H. unfold updateSelectedDay. rewrite H.
  by destruct (findEvent _ _).
Qed.

Lemma updateSelectedDay_selectedEvent (eventId : jsstring) (f : Event -> Event)
    (s : GridState) (dayState : DayState) :
  daysData s !! selectedEventDate s = Some dayState ->
  selectedEvent (updateSelectedDay eventId f s)
  = match findEvent eventId
            (List.map (fun e => if bool_decide (e_id e = eventId) then f e else e)
                      (events dayState)) with
    | Some updatedEvent => Some updatedEvent
    | None => selectedEvent s
    end.
Proof.
  intros H. unfold updateSelectedDay. rewrite H.
  by destruct (findEvent _ _).
Qed.

Lemma updateSelectedDay_other_cells (eventId : jsstring) (f : Event -> Event)
    (s : GridState) :
  selectedEventDate (updateSelectedDay eventId f s) = selectedEventDate s
  /\ addEventDate (updateSelectedDay eventId f s) = addEventDate s
  /\ showUnlockConfirm (updateSelectedDay eventId f s) = showUnlockConfirm s.
Proof.
  unfold updateSelectedDay.
  destruct (daysData s !! selectedEventDate s); [|done].
  by destruct (findEvent _ _).
Qed.



(** ** Lock toggle *)

(** C9. Frame of [handleToggleLock].  For an event id present on the
    selected day, the events of that day keep their number and order; an
    event with that id keeps its id, details, creation time and roles and
    has its locked flag negated; every other event is unchanged; every other
    day is unchanged; and the selected date and the other cells are kept,
    [selectedEvent] being refreshed with the toggled event. *)
Theorem handleToggleLock_frame (eventId : jsstring) (s : GridState)
    (dayState : DayState) :
  daysData s !! selectedEventDate s = Some dayState ->
  (exists e, In e (events dayState) /\ e_id e = eventId) ->
  let s' := handleToggleLock eventId s in
  exists evs',
    daysData s' !! selectedEventDate s = Some {| events := evs' |}
    /\ length evs' = length (events dayState)
    /\ (forall i e, events dayState !! i = Some e ->
          exists e', evs' !! i = Some e'
            /\ e_id e' = e_id e
            /\ e_details e' = e_details e
            /\ e_createdAt e' = e_createdAt e
            /\ e_roles e' = e_roles e
            /\ (e_id e = eventId -> e_locked e' = negb (e_locked e))
            /\ (e_id e <> eventId -> e' = e))
    /\ (forall d, d <> selectedEventDate s ->
          daysData s' !! d = daysData s !! d)
    /\ (exists e', selectedEvent s' = Some e' /\ In e' evs'
                   /\ e_id e' = eventId)
    /\ selectedEventDate s' = selectedEventDate s
    /\ addEventDate s' = addEventDate s
    /\ showUnlockConfirm s' = showUnlockConfirm s.
Proof.
  intros Hday Hpresent s'. subst s'. rewrite handleToggleLock_shape.
  set (f := fun e => withLocked e (negb (e_locked e))).
  set (g := fun e => if bool_decide (e_id e = eventId) then f e else e).
  exists (List.map g (events dayState)).
  rewrite (updateSelectedDay_daysData eventId f s dayState Hday). fold g.
  split; [apply lookup_insert_eq|].
  split; [apply length_map|].
  split.
  { intros i e Hi. exists (g e). split.
    - change (List.map g (events dayState)) with (g <$> events dayState).
      by rewrite list_lookup_fmap, Hi.
    - unfold g. destruct (bool_decide (e_id e = eventId)) eqn:He.
      + apply bool_decide_eq_true in He. repeat split; try done.
      + apply bool_decide_eq_false in He. repeat split; done. }
  split; [intros d Hd; by apply lookup_insert_ne|].
  split.
  { rewrite (updateSelectedDay_selectedEvent eventId f s dayState Hday). fold g.
    destruct (findEvent_present eventId (List.map g (events dayState)))
      as [e' He'].
    - destruct Hpresent as (e & Hin & Hid). exists (g e). split.
      + by apply in_map.
      + unfold g. rewrite bool_decide_eq_true_2 by assumption. exact Hid.
    - rewrite He'. exists e'. apply findEvent_Some in He' as [? ?]. done. }
  apply updateSelectedDay_other_cells.
Qed.

Example handleToggleLock_frame_witness :
  exists evs',
    daysData (handleToggleLock (js "e-1") sampleState) !! sampleDate
    = Some {| events := evs' |}
    /\ length evs' = 1%nat.
Proof.
  destruct (handleToggleLock_frame (js "e-1") sampleState
              {| events := [sampleEvent] |}) as (evs' & Hday & Hlen & _).
  - reflexivity.
  - exists sampleEvent. split; [by left|reflexivity].
  - exists evs'. split; [exact Hday|exact Hlen].
Defined.

(** ** Editing the details *)

Lemma handleUpdateEvent_daysData (eventId details : jsstring) (s : GridState) :
  daysData (handleUpdateEvent eventId details s)
  = match daysData s !! selectedEventDate s with
    | None => daysData s
    | Some dayState =>
        <[selectedEventDate s :=
            {| events := List.map (updateDetails eventId details)
                                  (events dayState) |}]> (daysData s)
    end.
Proof.
  unfold handleUpdateEvent.
  destruct (selectedEvent s) as [sel|]; [|reflexivity].
  by destruct (bool_decide (e_id sel = eventId)).
Qed.

(** ** Removing a volunteer *)

Lemma filter_all_kept {A} (p : A -> bool) (l : list A) :
  (forall x, In x l -> p x = true) -> List.filter p l = l.
Proof.
  induction l as [|x l IH]; simpl; [reflexivity|]. intros H.
  rewrite (H x) by by left. f_equal. apply IH. intros y Hy. apply H. by right.
Qed.


Lemma roleVolunteers_insert_eq (roles : gmap jsstring (list VolunteerEntry))
    (roleId : jsstring) (vs : list VolunteerEntry) :
  roleVolunteers (<[roleId := vs]> roles) roleId = vs.
Proof. unfold roleVolunteers. by rewrite lookup_insert_eq. Qed.

Lemma roleVolunteers_insert_ne (roles : gmap jsstring (list VolunteerEntry))
    (roleId r : jsstring) (vs : list VolunteerEntry) :
  roleId <> r ->
  roleVolunteers (<[roleId := vs]> roles) r = roleVolunteers roles r.
Proof. intros H. unfold roleVolunteers. by rewrite lookup_insert_ne. Qed.




Lemma map_unchanged {A} (g : A -> A) (l : list A) :
  (forall x, In x l -> g x = x) -> List.map g l = l.
Proof.
  intros H. rewrite <- (List.map_id l) at 2. by apply List.map_ext_in.
Qed.



(** ** Signing up *)

Section SignupFacts.

Variable toLowerCase : jsstring -> jsstring.
Variable Parent : Type.
Variable onAddVolunteer :
  jsstring -> jsstring -> VolunteerEntry -> Parent -> Parent.

Lemma getInputState_updateInput (eventId roleId : jsstring)
    (updates : InputUpdate) (m : ModalState Parent) :
  getInputState (inputs (updateInput Parent eventId roleId updates m))
                eventId roleId
  = applyUpdate (getInputState (inputs m) eventId roleId) updates.
Proof.
  unfold updateInput, getInputState at 1. simpl.
  by rewrite !lookup_insert_eq.
Qed.

Lemma signup_rejected (eventId roleId : jsstring) (msg : string)
    (m : ModalState Parent) :
  In (js msg) signupErrors ->
  let m' := updateInput Parent eventId roleId (errorOnly msg) m in
  parent m' = parent m
  /\ In (i_error (getInputState (inputs m') eventId roleId)) signupErrors
  /\ i_name (getInputState (inputs m') eventId roleId)
     = i_name (getInputState (inputs m) eventId roleId)
  /\ i_phone (getInputState (inputs m') eventId roleId)
     = i_phone (getInputState (inputs m) eventId roleId).
Proof.
  intros Hmsg m'. subst m'. rewrite getInputState_updateInput.
  by repeat split.
Qed.

End SignupFacts.

(** C2. The signup is atomic on error.  When the typed name is empty after
    trimming, or the typed phone does not reduce to exactly ten digits, or
    the candidate is a duplicate among the volunteers of the target event
    and role, [handleAddVolunteer] of the signup modal does not call
    [onAddVolunteer]: the parent's state (days, events, volunteers) is
    unchanged, the form shows one of its three error messages, none of them
    empty, and the typed name and phone stay in the form. *)
Theorem signup_handleAddVolunteer_error_atomic
    (toLowerCase : jsstring -> jsstring) (Parent : Type)
    (onAddVolunteer : jsstring -> jsstring -> VolunteerEntry -> Parent -> Parent)
    (newId eventId roleId : jsstring) (existingVolunteers : list VolunteerEntry)
    (m : ModalState Parent) :
  let typed := getInputState (inputs m) eventId roleId in
  trim (i_name typed) = []
  \/ length (stripNonDigits (i_phone typed)) <> 10%nat
  \/ isDuplicateVolunteer toLowerCase existingVolunteers
       (i_name typed) (i_phone typed) = true ->
  let m' :=
    VolunteerSignupModal.handleAddVolunteer toLowerCase Parent onAddVolunteer newId
      eventId roleId existingVolunteers m in
  parent m' = parent m
  /\ In (i_error (getInputState (inputs m') eventId roleId)) signupErrors
  /\ i_error (getInputState (inputs m') eventId roleId) <> []
  /\ i_name (getInputState (inputs m') eventId roleId) = i_name typed
  /\ i_phone (getInputState (inputs m') eventId roleId) = i_phone typed.
Proof.
  intros typed Hbad m'.
  assert (Hmain :
    parent m' = parent m
    /\ In (i_error (getInputState (inputs m') eventId roleId)) signupErrors
    /\ i_name (getInputState (inputs m') eventId roleId) = i_name typed
    /\ i_phone (getInputState (inputs m') eventId roleId) = i_phone typed).
  { subst m'. unfold VolunteerSignupModal.handleAddVolunteer. fold typed.
    destruct (isEmpty (trim (i_name typed))) eqn:Hname.
    { apply signup_rejected. simpl. tauto. }
    destruct (isValidPhone (i_phone typed)) eqn:Hphone; simpl.
    2:{ apply signup_rejected. simpl. tauto. }
    rewrite isDuplicateVolunteer_trim.
    destruct (isDuplicateVolunteer toLowerCase existingVolunteers
                (i_name typed) (i_phone typed)) eqn:Hdup.
    { apply signup_rejected. simpl. tauto. }
    exfalso. destruct Hbad as [Hn|[Hp|Hd]].
    - by rewrite Hn in Hname.
    - unfold isValidPhone in Hphone. by apply Nat.eqb_eq in Hphone.
    - discriminate. }
  destruct Hmain as (Hp & Herr & Hn & Hph).
  repeat split; try assumption.
  intros Hempty. rewrite Hempty in Herr.
  simpl in Herr. destruct Herr as [H|[H|[H|[]]]]; discriminate.
Qed.

Example signup_handleAddVolunteer_error_atomic_witness :
  let m := {| inputs :=
                {[ js "e-1" :=
                     {[ js "role-4" :=
                          {| i_name := js "Ali"; i_phone := js "(312) 555-01";
                             i_error := [] |} ]} ]};
              parent := sampleState |} in
  let m' :=
    VolunteerSignupModal.handleAddVolunteer asciiLowerCase GridState
      CalendarGrid.handleAddVolunteer
      (js "v-1") (js "e-1") (js "role-4") [] m in
  parent m' = sampleState
  /\ i_error (getInputState (inputs m') (js "e-1") (js "role-4"))
     = js "Please enter a valid 10-digit phone number".
Proof.
  intros m m'.
  destruct (signup_handleAddVolunteer_error_atomic asciiLowerCase GridState
              CalendarGrid.handleAddVolunteer (js "v-1") (js "e-1") (js "role-4") [] m)
    as (Hparent & _).
  - right. left. vm_compute. lia.
  - split; [exact Hparent|reflexivity].
Defined.

(** The scenario of the specification, run on the model: after "Ali" signs
    up with "(312) 555-0199" for the volunteers list of the sample event,
    the stored phone is "3125550199" and the coverage counts one
    volunteer. *)
Example signup_scenario :
  let m := {| inputs :=
                {[ js "e-1" :=
                     {[ js "role-4" :=
                          {| i_name := js " Ali "; i_phone := js "(312) 555-0199";
                             i_error := [] |} ]} ]};
              parent := sampleState |} in
  let m' :=
    VolunteerSignupModal.handleAddVolunteer asciiLowerCase GridState
      CalendarGrid.handleAddVolunteer
      (js "v-1") (js "e-1") (js "role-4") [] m in
  exists e,
    selectedEvent (parent m') = Some e
    /\ e_roles e !! js "role-4"
       = Some [ {| v_id := js "v-1"; v_name := js "Ali";
                   v_phone := js "3125550199" |} ]
    /\ getCoverageStatus e
         {| r_id := js "role-4"; r_label := js "Volunteers list";
            r_isDefault := Some true; r_minVolunteers := 8 |}
       = {| current := 1; minimum := 8; isMet := false |}
    /\ i_name (getInputState (inputs m') (js "e-1") (js "role-4")) = [].
Proof. eexists. repeat split. Qed.

(** * Further properties of the phone utilities *)

Lemma maskPhoneInput_maskDigits (s : jsstring) :
  maskPhoneInput s = maskDigits (stripNonDigits s).
Proof. reflexivity. Qed.

Lemma slice_short (a b : nat) (d : jsstring) :
  (length d <= a)%nat -> slice a b d = [].
Proof. intros H. unfold slice. rewrite drop_ge by assumption. apply take_nil. Qed.

Lemma slice_of_take (a b : nat) (d : jsstring) :
  (a <= b <= 10)%nat -> slice a b (take 10 d) = slice a b d.
Proof.
  intros Hb. unfold slice.
  rewrite !take_drop_commute, take_take.
  by replace ((a + (b - a)) `min` 10)%nat with (a + (b - a))%nat by lia.
Qed.

(** Whatever branch is taken, the digits of the mask are the three slices. *)
Lemma stripNonDigits_maskDigits (d : jsstring) :
  forallb isDigit d = true ->
  stripNonDigits (maskDigits d) = take 10 d.
Proof.
  intros Hd. rewrite <- slices_take_10. unfold maskDigits.
  destruct (Nat.ltb_spec 0 (length d));
    destruct (Nat.leb_spec 3 (length d));
    destruct (Nat.leb_spec 6 (length d)); try lia;
    rewrite ?stripNonDigits_app;
    rewrite ?(stripNonDigits_digits (slice _ _ d)) by (by apply forallb_slice);
    change (stripNonDigits (js "(")) with (@nil N);
    change (stripNonDigits (js ") ")) with (@nil N);
    change (stripNonDigits (js "-")) with (@nil N);
    rewrite ?(slice_short 6 10 d) by lia;
    rewrite ?(slice_short 3 6 d) by lia;
    rewrite ?(slice_short 0 3 d) by lia;
    simpl; rewrite ?app_nil_r, <- ?app_assoc; reflexivity.
Qed.

Lemma maskDigits_take (d : jsstring) : maskDigits (take 10 d) = maskDigits d.
Proof.
  unfold maskDigits. rewrite !slice_of_take by lia. rewrite length_take.
  destruct (Nat.ltb_spec 0 (length d)); destruct (Nat.ltb_spec 0 (10 `min` length d));
    try lia;
    destruct (Nat.leb_spec 3 (length d)); destruct (Nat.leb_spec 3 (10 `min` length d));
    try lia;
    destruct (Nat.leb_spec 6 (length d)); destruct (Nat.leb_spec 6 (10 `min` length d));
    try lia; reflexivity.
Qed.

Lemma length_slice (a b : nat) (d : jsstring) :
  length (slice a b d) = ((b - a) `min` (length d - a))%nat.
Proof. unfold slice. by rewrite length_take, length_drop. Qed.

(** X1. The mask keeps the digits that were typed, in order, up to the
    tenth: stripping the masked value gives the first ten digits of the
    input, whatever the input. *)
Theorem maskPhoneInput_keeps_digits (s : jsstring) :
  stripNonDigits (maskPhoneInput s) = take 10 (stripNonDigits s).
Proof.
  rewrite maskPhoneInput_maskDigits.
  apply stripNonDigits_maskDigits, forallb_isDigit_strip.
Qed.

(** X2. Masking is idempotent: a value that is already masked is left as it
    is, so the mask can be applied again on every keystroke. *)
Theorem maskPhoneInput_idempotent (s : jsstring) :
  maskPhoneInput (maskPhoneInput s) = maskPhoneInput s.
Proof.
  rewrite (maskPhoneInput_maskDigits (maskPhoneInput s)).
  rewrite (maskPhoneInput_maskDigits s) at 1.
  rewrite stripNonDigits_maskDigits by apply forallb_isDigit_strip.
  rewrite maskDigits_take. reflexivity.
Qed.

(** X3. The masked value is never longer than the 14 characters of
    "(XXX) XXX-XXXX", is empty exactly when the input has no digit, and has
    all 14 characters as soon as the input has ten digits. *)
Theorem maskPhoneInput_length (s : jsstring) :
  (length (maskPhoneInput s) <= 14)%nat
  /\ (maskPhoneInput s = [] <-> stripNonDigits s = [])
  /\ ((10 <= length (stripNonDigits s))%nat ->
      length (maskPhoneInput s) = 14%nat).
Proof.
  rewrite maskPhoneInput_maskDigits. set (d := stripNonDigits s).
  assert (Hlen : length (maskDigits d)
                 = ((if (0 <? length d)%nat then 1 + 3 `min` length d else 0)
                    + (if (3 <=? length d)%nat then 2 + 3 `min` (length d - 3) else 0)
                    + (if (6 <=? length d)%nat then 1 + 4 `min` (length d - 6) else 0))%nat).
  { unfold maskDigits.
    destruct (0 <? length d)%nat; destruct (3 <=? length d)%nat;
      destruct (6 <=? length d)%nat;
      rewrite ?length_app, ?length_slice;
      change (length (js "(")) with 1%nat;
      change (length (js ") ")) with 2%nat;
      change (length (js "-")) with 1%nat;
      change (length (@nil N)) with 0%nat; lia. }
  split; [|split].
  - rewrite Hlen.
    destruct (0 <? length d)%nat; destruct (3 <=? length d)%nat;
      destruct (6 <=? length d)%nat; lia.
  - split; intros H.
    + apply (f_equal length) in H. rewrite Hlen in H. simpl in H.
      destruct (Nat.ltb_spec 0 (length d)); [lia|].
      destruct d; [reflexivity|simpl in *; lia].
    + by rewrite H.
  - intros H10. rewrite Hlen.
    destruct (Nat.ltb_spec 0 (length d)); destruct (Nat.leb_spec 3 (length d));
      destruct (Nat.leb_spec 6 (length d)); lia.
Qed.

Example maskPhoneInput_length_witness :
  length (maskPhoneInput (js "3125550199123")) = 14%nat.
Proof.
  apply (proj2 (proj2 (maskPhoneInput_length (js "3125550199123")))).
  vm_compute. lia.
Defined.

Lemma stripNonDigits_formatted (d : jsstring) :
  forallb isDigit d = true ->
  stripNonDigits
    (js "(" ++ slice 0 3 d ++ js ") " ++ slice 3 6 d ++ js "-" ++ sliceFrom 6 d)
  = d.
Proof.
  intros Hd. rewrite !stripNonDigits_app.
  rewrite !(stripNonDigits_digits (slice _ _ d)) by (by apply forallb_slice).
  rewrite (stripNonDigits_digits (sliceFrom 6 d)) by (by apply forallb_drop).
  change (stripNonDigits (js "(")) with (@nil N).
  change (stripNonDigits (js ") ")) with (@nil N).
  change (stripNonDigits (js "-")) with (@nil N).
  unfold slice, sliceFrom. simpl.
  rewrite app_assoc, take_take_drop. apply (take_drop 6).
Qed.

Lemma sliceFrom_6_of_ten (d : jsstring) :
  length d = 10%nat -> sliceFrom 6 d = slice 6 10 d.
Proof.
  intros H. unfold slice, sliceFrom. simpl.
  rewrite take_ge; [reflexivity|]. rewrite length_drop. lia.
Qed.

(** X4. A phone is valid exactly when cleaning it gives a non-empty result,
    and cleaning gives either the empty string or the digits of the input,
    which are then a string of exactly ten digits. *)
Theorem isValidPhone_cleanPhone (phone : jsstring) :
  (isValidPhone phone = true <-> cleanPhone phone <> [])
  /\ (cleanPhone phone = []
      \/ cleanPhone phone = stripNonDigits phone
         /\ isTenDigitString (cleanPhone phone) = true).
Proof.
  unfold isValidPhone, cleanPhone, isTenDigitString.
  destruct (Nat.eqb_spec (length (stripNonDigits phone)) 10) as [Hlen|Hlen].
  - split.
    + split; [|reflexivity]. intros _ Hnil.
      rewrite Hnil in Hlen. discriminate.
    + right. split; [reflexivity|].
      by rewrite forallb_isDigit_strip, Hlen.
  - split; [|by left]. split; [discriminate|]. by intros [].
Qed.

Lemma cleanPhone_formatPhone_any (phone : jsstring) :
  cleanPhone (formatPhone phone) = cleanPhone phone.
Proof.
  unfold formatPhone.
  destruct (Nat.eqb_spec (length (stripNonDigits phone)) 10) as [Hlen|Hlen];
    [|reflexivity].
  unfold cleanPhone.
  rewrite stripNonDigits_formatted by apply forallb_isDigit_strip.
  reflexivity.
Qed.

(** X5. Formatting for display loses nothing: cleaning a formatted phone
    gives what cleaning the phone itself gives, so a stored ten-digit phone
    is read back unchanged from its "(XXX) XXX-XXXX" form. *)
Theorem cleanPhone_formatPhone (phone : jsstring) :
  cleanPhone (formatPhone phone) = cleanPhone phone
  /\ (isTenDigitString phone = true -> cleanPhone (formatPhone phone) = phone).
Proof.
  split; [apply cleanPhone_formatPhone_any|].
  intros Hten. rewrite cleanPhone_formatPhone_any. unfold isTenDigitString in Hten.
  apply andb_prop in Hten as [Hd Hl]. unfold cleanPhone.
  rewrite stripNonDigits_digits by assumption. by rewrite Hl.
Qed.

Example cleanPhone_formatPhone_witness :
  cleanPhone (formatPhone (js "3125550199")) = js "3125550199".
Proof.
  apply (proj2 (cleanPhone_formatPhone (js "3125550199"))). reflexivity.
Defined.

(** X6. Formatting is idempotent: a phone that is already formatted is
    returned as it is. *)
Theorem formatPhone_idempotent (phone : jsstring) :
  formatPhone (formatPhone phone) = formatPhone phone.
Proof.
  unfold formatPhone at 2.
  destruct (Nat.eqb_spec (length (stripNonDigits phone)) 10) as [Hlen|Hlen].
  - unfold formatPhone.
    rewrite stripNonDigits_formatted by apply forallb_isDigit_strip.
    by rewrite Hlen.
  - reflexivity.
Qed.

(** X7. On an input that holds exactly ten digits the mask shown while
    typing and the display format agree. *)
Theorem maskPhoneInput_formatPhone (s : jsstring) :
  length (stripNonDigits s) = 10%nat ->
  maskPhoneInput s = formatPhone s.
Proof.
  intros Hlen. rewrite maskPhoneInput_full by lia.
  unfold formatPhone. rewrite Hlen.
  rewrite sliceFrom_6_of_ten by assumption. reflexivity.
Qed.

Example maskPhoneInput_formatPhone_witness :
  maskPhoneInput (js "312.555.0199") = formatPhone (js "312.555.0199").
Proof. apply maskPhoneInput_formatPhone. reflexivity. Defined.

(** X8. A masked value passes validation exactly when the input held at
    least ten digits: digits typed beyond the tenth are dropped by the
    mask, not rejected, and the phone stored is then the first ten. *)
Theorem isValidPhone_maskPhoneInput (s : jsstring) :
  isValidPhone (maskPhoneInput s) = (10 <=? length (stripNonDigits s))%nat.
Proof.
  unfold isValidPhone. rewrite maskPhoneInput_maskDigits.
  rewrite stripNonDigits_maskDigits by apply forallb_isDigit_strip.
  rewrite length_take.
  destruct (Nat.leb_spec 10 (length (stripNonDigits s)));
    [apply Nat.eqb_eq|apply Nat.eqb_neq]; lia.
Qed.

(** * Further properties of the duplicate check *)

(** X9. The duplicate check ignores how the candidate is written: the
    answer is the same for the name with or without the white space around
    it, for the phone as typed or in its display format, and more generally
    for any two candidates with the same trimmed lower-cased name and the
    same cleaned phone. *)
Theorem isDuplicateVolunteer_ignores_formatting
    (toLowerCase : jsstring -> jsstring)
    (volunteers : list VolunteerEntry) (name phone : jsstring) :
  isDuplicateVolunteer toLowerCase volunteers (trim name) phone
  = isDuplicateVolunteer toLowerCase volunteers name phone
  /\ isDuplicateVolunteer toLowerCase volunteers name (formatPhone phone)
     = isDuplicateVolunteer toLowerCase volunteers name phone
  /\ (forall name' phone',
        toLowerCase (trim name') = toLowerCase (trim name) ->
        cleanPhone phone' = cleanPhone phone ->
        isDuplicateVolunteer toLowerCase volunteers name' phone'
        = isDuplicateVolunteer toLowerCase volunteers name phone).
Proof.
  split; [apply isDuplicateVolunteer_trim|]. split.
  - unfold isDuplicateVolunteer. by rewrite cleanPhone_formatPhone_any.
  - intros name' phone' Hname Hphone. unfold isDuplicateVolunteer.
    by rewrite Hname, Hphone.
Qed.

Example isDuplicateVolunteer_ignores_formatting_witness :
  isDuplicateVolunteer asciiLowerCase
    [ {| v_id := js "v-1"; v_name := js "Ali"; v_phone := js "3125550199" |} ]
    (js "  ALI ") (js "312.555.0199")
  = isDuplicateVolunteer asciiLowerCase
      [ {| v_id := js "v-1"; v_name := js "Ali"; v_phone := js "3125550199" |} ]
      (js "ali") (js "(312) 555-0199").
Proof.
  apply (proj2 (proj2 (isDuplicateVolunteer_ignores_formatting asciiLowerCase
                         [ {| v_id := js "v-1"; v_name := js "Ali";
                              v_phone := js "3125550199" |} ]
                         (js "ali") (js "(312) 555-0199")))); reflexivity.
Defined.

(** X10. Against entries that store ten-digit phones, a candidate whose
    phone is not valid is never reported as a duplicate, whatever its
    name. *)
Theorem isDuplicateVolunteer_invalid_phone (toLowerCase : jsstring -> jsstring)
    (volunteers : list VolunteerEntry) (name phone : jsstring) :
  (forall v, In v volunteers -> isTenDigitString (v_phone v) = true) ->
  isValidPhone phone = false ->
  isDuplicateVolunteer toLowerCase volunteers name phone = false.
Proof.
  intros Hstored Hinvalid.
  destruct (isDuplicateVolunteer toLowerCase volunteers name phone) eqn:Hdup;
    [|reflexivity].
  apply isDuplicateVolunteer_iff in Hdup as (v & Hin & _ & Hphone).
  specialize (Hstored v Hin). unfold isTenDigitString in Hstored.
  apply andb_prop in Hstored as [_ Hlen]. apply Nat.eqb_eq in Hlen.
  unfold cleanPhone in Hphone. unfold isValidPhone in Hinvalid.
  rewrite Hinvalid in Hphone. rewrite Hphone in Hlen. discriminate.
Qed.

Example isDuplicateVolunteer_invalid_phone_witness :
  isDuplicateVolunteer asciiLowerCase
    [ {| v_id := js "v-1"; v_name := js "Ali"; v_phone := js "3125550199" |} ]
    (js "Ali") (js "312555") = false.
Proof.
  apply isDuplicateVolunteer_invalid_phone; [|reflexivity].
  intros v [<-|[]]. reflexivity.
Defined.

Lemma keys_distinct_snoc
    (toLowerCase : jsstring -> jsstring) (volunteers : list VolunteerEntry)
    (newId name phone : jsstring) :
  NoDup (List.map (duplicateKey toLowerCase) volunteers) ->
  isDuplicateVolunteer toLowerCase volunteers name phone = false ->
  NoDup (List.map (duplicateKey toLowerCase)
           (volunteers
              ++ [ {| v_id := newId; v_name := trim name;
                      v_phone := cleanPhone phone |} ])).
Proof.
  intros Hnodup Hfresh. rewrite List.map_app. apply NoDup_app.
  split; [exact Hnodup|]. split; [|apply NoDup_singleton].
  intros k Hk Hnew. apply list_elem_of_In in Hk, Hnew.
  destruct Hnew as [<-|[]].
  apply in_map_iff in Hk as (v & Hkey & Hin).
  unfold duplicateKey in Hkey. simpl in Hkey.
  rewrite trim_idempotent in Hkey. injection Hkey as Hname Hphone.
  assert (Hdup : isDuplicateVolunteer toLowerCase volunteers name phone = true).
  { apply isDuplicateVolunteer_iff. by exists v. }
  congruence.
Qed.

(** X11. The check does its job: when no two entries of a list share the
    key (trimmed lower-cased name, stored phone) and a candidate is not
    reported as a duplicate, the list extended with the entry built from
    the candidate, as every signup handler builds it (trimmed name, cleaned
    phone), still has no two entries sharing the key. *)
Theorem accepted_volunteer_keeps_keys_distinct
    (toLowerCase : jsstring -> jsstring) (volunteers : list VolunteerEntry)
    (newId name phone : jsstring) :
  NoDup (List.map (duplicateKey toLowerCase) volunteers) ->
  isDuplicateVolunteer toLowerCase volunteers name phone = false ->
  NoDup (List.map (duplicateKey toLowerCase)
           (volunteers
              ++ [ {| v_id := newId; v_name := trim name;
                      v_phone := cleanPhone phone |} ])).
Proof. apply keys_distinct_snoc. Qed.

Example accepted_volunteer_keeps_keys_distinct_witness :
  NoDup (List.map (duplicateKey asciiLowerCase)
           ([ {| v_id := js "v-1"; v_name := js "Ali";
                 v_phone := js "3125550199" |} ]
              ++ [ {| v_id := js "v-2"; v_name := trim (js " Ali ");
                      v_phone := cleanPhone (js "(312) 555-0100") |} ])).
Proof.
  apply accepted_volunteer_keeps_keys_distinct; [|reflexivity].
  vm_compute. apply NoDup_singleton.
Defined.

(** * Further properties of the grid handlers *)

Lemma findEvent_map (k : jsstring) (g : Event -> Event) (evs : list Event) :
  (forall e, e_id (g e) = e_id e) ->
  findEvent k (List.map g evs) = g <$> findEvent k evs.
Proof.
  intros Hid. unfold findEvent.
  induction evs as [|e evs IH]; simpl; [reflexivity|].
  rewrite Hid. destruct (bool_decide (e_id e = k)); [reflexivity|exact IH].
Qed.

Lemma findEvent_app (k : jsstring) (evs more : list Event) (e : Event) :
  findEvent k evs = Some e -> findEvent k (evs ++ more) = Some e.
Proof.
  unfold findEvent. induction evs as [|x evs IH]; simpl; [discriminate|].
  destruct (bool_decide (e_id x = k)); [done|exact IH].
Qed.

Lemma rewrite_keeps_id (eventId : jsstring) (f : Event -> Event) :
  (forall e, e_id (f e) = e_id e) ->
  forall e, e_id (if bool_decide (e_id e = eventId) then f e else e) = e_id e.
Proof. intros Hf e. by destruct (bool_decide (e_id e = eventId)). Qed.

Lemma DayState_eta (dayState : DayState) :
  {| events := events dayState |} = dayState.
Proof. by destruct dayState. Qed.

(** Two rewrites of the selected day in a row rewrite its events twice. *)
Lemma updateSelectedDay_twice_daysData (eventId : jsstring)
    (f1 f2 : Event -> Event) (s : GridState) (dayState : DayState) :
  daysData s !! selectedEventDate s = Some dayState ->
  daysData (updateSelectedDay eventId f2 (updateSelectedDay eventId f1 s))
  = <[selectedEventDate s :=
        {| events :=
             List.map (fun e => if bool_decide (e_id e = eventId) then f2 e else e)
               (List.map (fun e => if bool_decide (e_id e = eventId) then f1 e else e)
                  (events dayState)) |}]> (daysData s).
Proof.
  intros Hday.
  pose proof (updateSelectedDay_other_cells eventId f1 s) as (Hd & _ & _).
  pose proof (updateSelectedDay_daysData eventId f1 s dayState Hday) as Hdays.
  set (s1 := updateSelectedDay eventId f1 s) in *.
  rewrite (updateSelectedDay_daysData eventId f2 s1
             {| events :=
                  List.map (fun e => if bool_decide (e_id e = eventId) then f1 e else e)
                           (events dayState) |}).
  - simpl. rewrite Hd, Hdays. apply insert_insert_eq.
  - rewrite Hd, Hdays. apply lookup_insert_eq.
Qed.

Lemma filter_sublist {A} (p : A -> bool) (l : list A) :
  List.filter p l `sublist_of` l.
Proof.
  induction l as [|x l IH]; simpl; [constructor|].
  destruct (p x); by constructor.
Qed.

(** X12. Effect and frame of [handleAddVolunteer] of the grid.  On the
    selected day every event with the given id gets the volunteer appended
    to the sequence of the role (a missing entry counting as empty), so the
    coverage count of that role grows by exactly one; its other roles, its
    id, details, lock and creation time, the other events and the other
    days are unchanged, and the day keeps its number of events.  When the
    selected date has no day state the volunteer is dropped and the state is
    unchanged. *)
Theorem grid_handleAddVolunteer_effect (eventId roleId : jsstring)
    (volunteer : VolunteerEntry) (s : GridState) :
  (forall dayState, daysData s !! selectedEventDate s = Some dayState ->
     exists evs',
       daysData (CalendarGrid.handleAddVolunteer eventId roleId volunteer s)
         !! selectedEventDate s = Some {| events := evs' |}
       /\ length evs' = length (events dayState)
       /\ (forall i e, events dayState !! i = Some e ->
             exists e', evs' !! i = Some e'
               /\ e_id e' = e_id e /\ e_details e' = e_details e
               /\ e_locked e' = e_locked e /\ e_createdAt e' = e_createdAt e
               /\ (e_id e = eventId ->
                   roleVolunteers (e_roles e') roleId
                   = roleVolunteers (e_roles e) roleId ++ [volunteer]
                   /\ (forall r, r <> roleId ->
                         e_roles e' !! r = e_roles e !! r)
                   /\ (forall role, r_id role = roleId ->
                         current (getCoverageStatus e' role)
                         = (current (getCoverageStatus e role) + 1)%Z))
               /\ (e_id e <> eventId -> e' = e))
       /\ (forall d, d <> selectedEventDate s ->
             daysData (CalendarGrid.handleAddVolunteer eventId roleId volunteer s)
               !! d = daysData s !! d))
  /\ (daysData s !! selectedEventDate s = None ->
      CalendarGrid.handleAddVolunteer eventId roleId volunteer s = s).
Proof.
  split.
  - intros dayState Hday.
    change (CalendarGrid.handleAddVolunteer eventId roleId volunteer s)
      with (updateSelectedDay eventId
              (fun e =>
                 withRoles e
                   (<[roleId := roleVolunteers (e_roles e) roleId ++ [volunteer]]>
                      (e_roles e))) s).
    rewrite (updateSelectedDay_daysData _ _ s dayState Hday).
    eexists. split; [apply lookup_insert_eq|].
    split; [apply length_map|]. split.
    + intros i e Hi.
      change (List.map ?g ?l) with (g <$> l).
      rewrite list_lookup_fmap, Hi. simpl. eexists. split; [reflexivity|].
      destruct (bool_decide (e_id e = eventId)) eqn:He.
      * apply bool_decide_eq_true in He. simpl. repeat split; try done.
        -- apply roleVolunteers_insert_eq.
        -- intros r Hr. by apply lookup_insert_ne.
        -- intros role Hrole. unfold getCoverageStatus. simpl.
           rewrite Hrole, roleVolunteers_insert_eq, length_app. simpl. lia.
      * apply bool_decide_eq_false in He. repeat split; done.
    + intros d Hd. by apply lookup_insert_ne.
  - intros Hnone. unfold CalendarGrid.handleAddVolunteer. by rewrite Hnone.
Qed.

Example grid_handleAddVolunteer_effect_witness :
  exists evs' e',
    daysData
      (CalendarGrid.handleAddVolunteer (js "e-1") (js "role-4")
         {| v_id := js "v-1"; v_name := js "Ali"; v_phone := js "3125550199" |}
         sampleState) !! sampleDate = Some {| events := evs' |}
    /\ length evs' = 1%nat
    /\ evs' !! 0%nat = Some e'
    /\ roleVolunteers (e_roles e') (js "role-4")
       = [ {| v_id := js "v-1"; v_name := js "Ali";
              v_phone := js "3125550199" |} ]
    /\ current
         (getCoverageStatus e'
            {| r_id := js "role-4"; r_label := js "Volunteers list";
               r_isDefault := Some true; r_minVolunteers := 8 |}) = 1%Z.
Proof.
  destruct (proj1 (grid_handleAddVolunteer_effect (js "e-1") (js "role-4")
                     {| v_id := js "v-1"; v_name := js "Ali";
                        v_phone := js "3125550199" |} sampleState)
              {| events := [sampleEvent] |} eq_refl)
    as (evs' & Hday & Hlen & Hevents & _).
  destruct (Hevents 0%nat sampleEvent eq_refl)
    as (e' & He' & _ & _ & _ & _ & Hmatch & _).
  destruct (Hmatch eq_refl) as (Hroster & _ & Hcoverage).
  exists evs', e'. split; [exact Hday|]. split; [exact Hlen|].
  split; [exact He'|]. split; [exact Hroster|].
  exact (Hcoverage {| r_id := js "role-4"; r_label := js "Volunteers list";
                      r_isDefault := Some true; r_minVolunteers := 8 |}
                   eq_refl).
Defined.

(** X13. Adding a volunteer and then removing it by its id restores every
    sequence: when the id of the added volunteer is not already used in the
    role of the events concerned, each event of the selected day reads,
    after the two steps, the same sequence for every role as before, with
    its id, details, lock and creation time unchanged. *)
Theorem add_then_remove_restores (eventId roleId : jsstring)
    (volunteer : VolunteerEntry) (s : GridState) (dayState : DayState) :
  daysData s !! selectedEventDate s = Some dayState ->
  (forall e, In e (events dayState) -> e_id e = eventId ->
     forall v, In v (roleVolunteers (e_roles e) roleId) ->
               v_id v <> v_id volunteer) ->
  let s' :=
    handleRemoveVolunteer eventId roleId (v_id volunteer)
      (CalendarGrid.handleAddVolunteer eventId roleId volunteer s) in
  exists evs',
    daysData s' !! selectedEventDate s = Some {| events := evs' |}
    /\ forall i e, events dayState !! i = Some e ->
         exists e', evs' !! i = Some e'
           /\ e_id e' = e_id e /\ e_details e' = e_details e
           /\ e_locked e' = e_locked e /\ e_createdAt e' = e_createdAt e
           /\ forall r, roleVolunteers (e_roles e') r
                        = roleVolunteers (e_roles e) r.
Proof.
  intros Hday Hfresh s'. subst s'.
  rewrite handleRemoveVolunteer_shape.
  change (CalendarGrid.handleAddVolunteer eventId roleId volunteer s)
    with (updateSelectedDay eventId
            (fun e =>
               withRoles e
                 (<[roleId := roleVolunteers (e_roles e) roleId ++ [volunteer]]>
                    (e_roles e))) s).
  rewrite (updateSelectedDay_twice_daysData _ _ _ s dayState Hday).
  eexists. split; [apply lookup_insert_eq|].
  intros i e Hi.
  change (List.map ?g ?l) with (g <$> l).
  rewrite !list_lookup_fmap, Hi. simpl. eexists. split; [reflexivity|].
  destruct (bool_decide (e_id e = eventId)) eqn:He; simpl; rewrite He;
    [|done].
  apply bool_decide_eq_true in He. simpl. repeat split.
  intros r. destruct (decide (roleId = r)) as [<-|Hne].
  - rewrite !roleVolunteers_insert_eq, List.filter_app. simpl.
    rewrite bool_decide_eq_true_2 by reflexivity. simpl.
    rewrite app_nil_r. apply filter_all_kept.
    intros v Hv. apply negb_true_iff, bool_decide_eq_false.
    apply (Hfresh e); [|exact He|exact Hv].
    apply list_elem_of_In. by apply list_elem_of_lookup_2 with i.
  - by rewrite !roleVolunteers_insert_ne.
Qed.

Example add_then_remove_restores_witness :
  exists evs',
    daysData
      (handleRemoveVolunteer (js "e-1") (js "role-4") (js "v-1")
         (CalendarGrid.handleAddVolunteer (js "e-1") (js "role-4")
            {| v_id := js "v-1"; v_name := js "Ali";
               v_phone := js "3125550199" |} sampleState))
      !! sampleDate = Some {| events := evs' |}.
Proof.
  destruct (add_then_remove_restores (js "e-1") (js "role-4")
              {| v_id := js "v-1"; v_name := js "Ali";
                 v_phone := js "3125550199" |} sampleState
              {| events := [sampleEvent] |}) as (evs' & Hday & _).
  - reflexivity.
  - intros e [<-|[]] _ v [].
  - by exists evs'.
Defined.

(** X14. Effect of [handleRemoveVolunteer].  On the selected day, in every
    event with the given id, the sequence of the role keeps exactly the
    entries whose id differs from the removed one, in their order, so the
    coverage count of the role never grows; the other roles of the event
    and the events with another id are unchanged. *)
Theorem handleRemoveVolunteer_effect (eventId roleId volunteerId : jsstring)
    (s : GridState) (dayState : DayState) :
  daysData s !! selectedEventDate s = Some dayState ->
  exists evs',
    daysData (handleRemoveVolunteer eventId roleId volunteerId s)
      !! selectedEventDate s = Some {| events := evs' |}
    /\ forall i e, events dayState !! i = Some e ->
         exists e', evs' !! i = Some e'
           /\ (e_id e = eventId ->
               (forall v, In v (roleVolunteers (e_roles e') roleId)
                          <-> In v (roleVolunteers (e_roles e) roleId)
                              /\ v_id v <> volunteerId)
               /\ roleVolunteers (e_roles e') roleId
                    `sublist_of` roleVolunteers (e_roles e) roleId
               /\ (forall r, r <> roleId -> e_roles e' !! r = e_roles e !! r)
               /\ (forall role, r_id role = roleId ->
                     (current (getCoverageStatus e' role)
                      <= current (getCoverageStatus e role))%Z))
           /\ (e_id e <> eventId -> e' = e).
Proof.
  intros Hday. rewrite handleRemoveVolunteer_shape.
  rewrite (updateSelectedDay_daysData _ _ s dayState Hday).
  eexists. split; [apply lookup_insert_eq|].
  intros i e Hi.
  change (List.map ?g ?l) with (g <$> l).
  rewrite list_lookup_fmap, Hi. simpl. eexists. split; [reflexivity|].
  destruct (bool_decide (e_id e = eventId)) eqn:He.
  - apply bool_decide_eq_true in He. simpl.
    split; [|done]. intros _. rewrite roleVolunteers_insert_eq.
    split; [|split; [|split]].
    + intros v. rewrite filter_In, negb_true_iff, bool_decide_eq_false.
      reflexivity.
    + apply filter_sublist.
    + intros r Hr. by apply lookup_insert_ne.
    + intros role Hrole. unfold getCoverageStatus. simpl.
      rewrite Hrole, roleVolunteers_insert_eq.
      pose proof (sublist_length _ _
                    (filter_sublist
                       (fun v => negb (bool_decide (v_id v = volunteerId)))
                       (roleVolunteers (e_roles e) roleId))).
      lia.
  - apply bool_decide_eq_false in He. split; [done|reflexivity].
Qed.

Example handleRemoveVolunteer_effect_witness :
  exists evs',
    daysData (handleRemoveVolunteer (js "e-1") (js "role-4") (js "v-1")
                sampleState) !! sampleDate = Some {| events := evs' |}.
Proof.
  destruct (handleRemoveVolunteer_effect (js "e-1") (js "role-4") (js "v-1")
              sampleState {| events := [sampleEvent] |}) as (evs' & Hday & _).
  - reflexivity.
  - by exists evs'.
Defined.

(** X15. Toggling the lock twice restores the days data: the second toggle
    undoes the first on every event it touched. *)
Theorem handleToggleLock_twice (eventId : jsstring) (s : GridState) :
  daysData (handleToggleLock eventId (handleToggleLock eventId s))
  = daysData s.
Proof.
  rewrite !handleToggleLock_shape.
  destruct (daysData s !! selectedEventDate s) as [dayState|] eqn:Hday.
  - rewrite (updateSelectedDay_twice_daysData _ _ _ s dayState Hday).
    rewrite List.map_map, map_unchanged.
    + apply insert_id. by rewrite Hday, DayState_eta.
    + intros e _. destruct (bool_decide (e_id e = eventId)) eqn:He; simpl;
        rewrite He; [|reflexivity].
      destruct e. unfold withLocked. simpl. by rewrite negb_involutive.
  - by rewrite !(updateSelectedDay_None _ _ s Hday).
Qed.

(** X16. [handleDeleteEvent] removes from the selected day every event with
    the id of the selected event, with all its volunteers, keeps the other
    events in their order and the other days as they are, and clears the
    selection; without a selected event it does nothing. *)
Theorem handleDeleteEvent_effect (s : GridState) :
  (selectedEvent s = None -> handleDeleteEvent s = s)
  /\ (forall sel dayState,
        selectedEvent s = Some sel ->
        daysData s !! selectedEventDate s = Some dayState ->
        exists evs',
          daysData (handleDeleteEvent s) !! selectedEventDate s
          = Some {| events := evs' |}
          /\ findEvent (e_id sel) evs' = None
          /\ (forall e, In e evs' <-> In e (events dayState)
                                      /\ e_id e <> e_id sel)
          /\ evs' `sublist_of` events dayState
          /\ (forall d, d <> selectedEventDate s ->
                daysData (handleDeleteEvent s) !! d = daysData s !! d)
          /\ selectedEvent (handleDeleteEvent s) = None)
  /\ (forall sel,
        selectedEvent s = Some sel ->
        daysData s !! selectedEventDate s = None ->
        daysData (handleDeleteEvent s) = daysData s
        /\ selectedEvent (handleDeleteEvent s) = None).
Proof.
  split; [|split].
  - intros Hsel. unfold handleDeleteEvent. by rewrite Hsel.
  - intros sel dayState Hsel Hday.
    unfold handleDeleteEvent. rewrite Hsel. simpl. rewrite Hday.
    eexists. split; [apply lookup_insert_eq|].
    assert (Hin : forall e,
              In e (List.filter
                      (fun e => negb (bool_decide (e_id e = e_id sel)))
                      (events dayState))
              <-> In e (events dayState) /\ e_id e <> e_id sel).
    { intros e. by rewrite filter_In, negb_true_iff, bool_decide_eq_false. }
    split; [|split; [exact Hin|split; [apply filter_sublist|split]]].
    + destruct (findEvent _ _) as [e|] eqn:Hfind; [|reflexivity].
      apply findEvent_Some in Hfind as [He Hid].
      apply Hin in He as [_ Hne]. contradiction.
    + intros d Hd. by apply lookup_insert_ne.
    + reflexivity.
  - intros sel Hsel Hday. unfold handleDeleteEvent.
    rewrite Hsel. simpl. by rewrite Hday.
Qed.

Example handleDeleteEvent_effect_witness :
  exists evs',
    daysData (handleDeleteEvent sampleState) !! sampleDate
    = Some {| events := evs' |}
    /\ findEvent (js "e-1") evs' = None.
Proof.
  destruct (proj1 (proj2 (handleDeleteEvent_effect sampleState))
              sampleEvent {| events := [sampleEvent] |})
    as (evs' & Hday & Hnone & _).
  - reflexivity.
  - reflexivity.
  - exists evs'. split; [exact Hday|exact Hnone].
Defined.

(** ** The selection stays in step with the days data *)

Lemma updateSelectedDay_inSync (eventId : jsstring) (f : Event -> Event)
    (s : GridState) :
  (forall e, e_id (f e) = e_id e) ->
  inSync s -> inSync (updateSelectedDay eventId f s).
Proof.
  intros Hf Hsync.
  destruct (daysData s !! selectedEventDate s) as [dayState|] eqn:Hday.
  2:{ by rewrite (updateSelectedDay_None _ _ s Hday). }
  set (g := fun e => if bool_decide (e_id e = eventId) then f e else e).
  assert (Hg : forall e, e_id (g e) = e_id e) by by apply rewrite_keeps_id.
  pose proof (updateSelectedDay_other_cells eventId f s) as (Hd & _ & _).
  pose proof (updateSelectedDay_daysData eventId f s dayState Hday) as Hdays.
  pose proof (updateSelectedDay_selectedEvent eventId f s dayState Hday) as Hsel.
  fold g in Hdays, Hsel.
  unfold inSync. rewrite Hsel, Hd, Hdays, lookup_insert_eq.
  destruct (findEvent eventId (List.map g (events dayState))) as [u|] eqn:Hfind.
  - eexists. split; [reflexivity|]. simpl.
    apply findEvent_Some in Hfind as Hu. destruct Hu as [_ Hu].
    by rewrite Hu.
  - unfold inSync in Hsync.
    destruct (selectedEvent s) as [sel|]; [|exact I].
    destruct Hsync as (ds & Hds & Hfound).
    rewrite Hday in Hds. injection Hds as <-.
    eexists. split; [reflexivity|]. simpl.
    rewrite findEvent_map, Hfound by exact Hg. simpl. f_equal.
    unfold g. destruct (bool_decide (e_id sel = eventId)) eqn:He; [|reflexivity].
    apply bool_decide_eq_true in He. subst eventId.
    rewrite findEvent_map, Hfound in Hfind by exact Hg. discriminate.
Qed.

(** X17. The selection stays in step with the days data.  If the selected
    event is the event its id finds on the selected day, this is still so
    after editing details, toggling a lock, adding or removing a volunteer,
    creating an event or deleting the selected one, for any arguments; and
    clicking an event that its id finds on its day selects it in step. *)
Theorem handlers_keep_selection_in_sync (s : GridState) :
  inSync s ->
  (forall eventId details, inSync (handleUpdateEvent eventId details s))
  /\ (forall eventId, inSync (handleToggleLock eventId s))
  /\ (forall eventId roleId volunteer,
        inSync (CalendarGrid.handleAddVolunteer eventId roleId volunteer s))
  /\ (forall eventId roleId volunteerId,
        inSync (handleRemoveVolunteer eventId roleId volunteerId s))
  /\ (forall newId now details,
        inSync (handleSaveNewEvent newId now details s))
  /\ inSync (handleDeleteEvent s)
  /\ (forall date event dayState,
        daysData s !! date = Some dayState ->
        findEvent (e_id event) (events dayState) = Some event ->
        inSync (handleEventClick date event s)).
Proof.
  intros Hsync. repeat split.
  - intros eventId details. unfold inSync in *.
    pose proof (handleUpdateEvent_daysData eventId details s) as Hdays.
    assert (Hdate : selectedEventDate (handleUpdateEvent eventId details s)
                    = selectedEventDate s).
    { unfold handleUpdateEvent. destruct (selectedEvent s) as [sel|]; [|done].
      by destruct (bool_decide (e_id sel = eventId)). }
    assert (Hsel : selectedEvent (handleUpdateEvent eventId details s)
                   = updateDetails eventId details <$> selectedEvent s).
    { unfold handleUpdateEvent, updateDetails.
      destruct (selectedEvent s) as [sel|] eqn:Hcur; simpl; [|exact Hcur].
      destruct (bool_decide (e_id sel = eventId)); simpl;
        [reflexivity|exact Hcur]. }
    rewrite Hsel, Hdate, Hdays.
    destruct (selectedEvent s) as [sel|]; [|exact I]. simpl.
    destruct Hsync as (ds & Hds & Hfound). rewrite Hds.
    assert (Hid : forall e, e_id (updateDetails eventId details e) = e_id e).
    { intros e. unfold updateDetails.
      by destruct (bool_decide (e_id e = eventId)). }
    eexists. split; [apply lookup_insert_eq|]. simpl.
    by rewrite Hid, findEvent_map, Hfound.
  - intros eventId. rewrite handleToggleLock_shape.
    by apply updateSelectedDay_inSync.
  - intros eventId roleId volunteer.
    change (CalendarGrid.handleAddVolunteer eventId roleId volunteer s)
      with (updateSelectedDay eventId
              (fun e =>
                 withRoles e
                   (<[roleId := roleVolunteers (e_roles e) roleId ++ [volunteer]]>
                      (e_roles e))) s).
    by apply updateSelectedDay_inSync.
  - intros eventId roleId volunteerId. rewrite handleRemoveVolunteer_shape.
    by apply updateSelectedDay_inSync.
  - intros newId now details. unfold inSync in *.
    change (selectedEvent (handleSaveNewEvent newId now details s))
      with (selectedEvent s).
    change (selectedEventDate (handleSaveNewEvent newId now details s))
      with (selectedEventDate s).
    destruct (selectedEvent s) as [sel|]; [|exact I].
    destruct Hsync as (ds & Hds & Hfound). simpl.
    destruct (decide (addEventDate s = selectedEventDate s)) as [Heq|Hne].
    + rewrite Heq, lookup_insert_eq, Hds. simpl.
      eexists. split; [reflexivity|]. simpl. by apply findEvent_app.
    + rewrite lookup_insert_ne by exact Hne. by exists ds.
  - unfold handleDeleteEvent, inSync.
    by destruct (selectedEvent s).
  - intros date event dayState Hday Hfound. unfold inSync. simpl.
    by exists dayState.
Qed.

Example handlers_keep_selection_in_sync_witness :
  inSync (handleToggleLock (js "e-1") sampleState)
  /\ inSync (handleDeleteEvent sampleState).
Proof.
  destruct (handlers_keep_selection_in_sync sampleState)
    as (_ & Htoggle & _ & _ & _ & Hdelete & _).
  - exists {| events := [sampleEvent] |}. split; reflexivity.
  - split; [apply Htoggle|exact Hdelete].
Defined.

Lemma handleUpdateEvent_selectedEventDate (eventId details : jsstring)
    (s : GridState) :
  selectedEventDate (handleUpdateEvent eventId details s) = selectedEventDate s.
Proof.
  unfold handleUpdateEvent. destruct (selectedEvent s) as [sel|]; [|done].
  by destruct (bool_decide (e_id sel = eventId)).
Qed.

(** X18. "Lock & Save" in the detail modal, on an unlocked event.  With a
    text that is blank after trimming nothing is saved and nothing is
    locked: the state is unchanged.  Otherwise every event of the selected
    day with the id of the displayed event gets the trimmed text as its
    details and its lock flag negated, keeping its id and roles, and the
    other events are unchanged; when the selection is in step with the days
    data, the displayed event becomes the locked event with the trimmed
    text. *)
Theorem lock_and_save (editedDetails : jsstring) (s : GridState) (event : Event) :
  selectedEvent s = Some event ->
  e_locked event = false ->
  (trim editedDetails = [] -> handleToggleLockClick editedDetails s = s)
  /\ (trim editedDetails <> [] ->
      forall dayState,
        daysData s !! selectedEventDate s = Some dayState ->
        exists evs',
          daysData (handleToggleLockClick editedDetails s)
            !! selectedEventDate s = Some {| events := evs' |}
          /\ (forall i e, events dayState !! i = Some e ->
                exists e', evs' !! i = Some e'
                  /\ (e_id e = e_id event ->
                      e_details e' = trim editedDetails
                      /\ e_locked e' = negb (e_locked e)
                      /\ e_id e' = e_id e /\ e_roles e' = e_roles e)
                  /\ (e_id e <> e_id event -> e' = e))
          /\ (inSync s ->
              selectedEvent (handleToggleLockClick editedDetails s)
              = Some (withLocked (withDetails event (trim editedDetails)) true))).
Proof.
  intros Hsel Hunlocked. unfold handleToggleLockClick.
  rewrite Hsel, Hunlocked. split.
  - by intros ->.
  - intros Hnonblank dayState Hday.
    destruct (trim editedDetails) as [|c t] eqn:Htrim; [done|].
    simpl. rewrite <- Htrim. clear Hnonblank. set (text := trim editedDetails).
    set (s1 := handleUpdateEvent (e_id event) text s).
    assert (Hdate : selectedEventDate s1 = selectedEventDate s)
      by apply handleUpdateEvent_selectedEventDate.
    assert (Hday1 : daysData s1 !! selectedEventDate s1
                    = Some {| events := List.map (updateDetails (e_id event) text)
                                                 (events dayState) |}).
    { rewrite Hdate. unfold s1. rewrite handleUpdateEvent_daysData, Hday.
      apply lookup_insert_eq. }
    rewrite handleToggleLock_shape.
    rewrite (updateSelectedDay_daysData _ _ s1 _ Hday1),
            (updateSelectedDay_selectedEvent _ _ s1 _ Hday1).
    rewrite Hdate. simpl.
    eexists. split; [apply lookup_insert_eq|]. split.
    + intros i e Hi.
      change (List.map ?g ?l) with (g <$> l).
      rewrite !list_lookup_fmap, Hi. simpl. eexists. split; [reflexivity|].
      unfold updateDetails.
      destruct (bool_decide (e_id e = e_id event)) eqn:He; simpl; rewrite He.
      * apply bool_decide_eq_true in He. split; [done|]. intros Hne. contradiction.
      * apply bool_decide_eq_false in He. split; [intros Heq; contradiction|done].
    + intros Hsync. unfold inSync in Hsync. rewrite Hsel in Hsync.
      destruct Hsync as (ds & Hds & Hfound).
      rewrite Hday in Hds. injection Hds as <-.
      assert (Hupd : forall e, e_id (updateDetails (e_id event) text e) = e_id e).
      { intros e. unfold updateDetails.
        by destruct (bool_decide (e_id e = e_id event)). }
      rewrite findEvent_map by (by apply rewrite_keeps_id).
      rewrite findEvent_map, Hfound by exact Hupd. simpl.
      unfold updateDetails.
      rewrite !(bool_decide_eq_true_2 (e_id event = e_id event)) by reflexivity.
      simpl.
      rewrite ?(bool_decide_eq_true_2 (e_id event = e_id event)) by reflexivity.
      by rewrite Hunlocked.
Qed.

(** "Lock & Save" with a new text on the unlocked second event of the
    session with two events. *)
Example lock_and_save_witness :
  exists evs' e',
    daysData (handleToggleLockClick (js " Iftar dinner ") twoEventState)
      !! sampleDate = Some {| events := evs' |}
    /\ evs' !! 1%nat = Some e'
    /\ e_details e' = js "Iftar dinner"
    /\ e_locked e' = true
    /\ selectedEvent (handleToggleLockClick (js " Iftar dinner ") twoEventState)
       = Some (withLocked
                 (withDetails (withLocked secondEvent false) (js "Iftar dinner"))
                 true).
Proof.
  destruct (lock_and_save (js " Iftar dinner ") twoEventState
              (withLocked secondEvent false) eq_refl eq_refl)
    as [_ Hsave].
  destruct (Hsave ltac:(vm_compute; discriminate)
              {| events := [sampleEvent; withLocked secondEvent false] |}
              eq_refl)
    as (evs' & Hday & Hevents & Hselected).
  destruct (Hevents 1%nat (withLocked secondEvent false) eq_refl)
    as (e' & He' & Hmatch & _).
  destruct (Hmatch eq_refl) as (Hdetails & Hlocked & _).
  exists evs', e'. split; [exact Hday|]. split; [exact He'|].
  split; [exact Hdetails|]. split; [exact Hlocked|].
  apply Hselected.
  exists {| events := [sampleEvent; withLocked secondEvent false] |}.
  split; reflexivity.
Defined.

(** * Properties of the dialogs *)

(** X19. Creating an event through the add-event dialog.  A text that is
    blank after trimming is refused with "Event details are required" and
    the grid is unchanged.  Otherwise the day being added to receives, after
    its existing events, one event that is locked, has no roles yet and
    carries the trimmed text, which is not empty, and the dialog is closed
    (the date being added to is reset). *)
Theorem add_event_dialog_save (newId : jsstring) (now : Z)
    (m : AddEventModal.State GridState) :
  let s := AddEventModal.parent m in
  let m' :=
    AddEventModal.handleSave GridState (handleSaveNewEvent newId now)
      addEventOnOpenChange m in
  (trim (AddEventModal.details m) = [] ->
   AddEventModal.parent m' = s
   /\ AddEventModal.error m' = js "Event details are required")
  /\ (trim (AddEventModal.details m) <> [] ->
      exists newEvent,
        daysData (AddEventModal.parent m') !! addEventDate s
        = Some {| events :=
                    events (default createEmptyDayState
                              (daysData s !! addEventDate s))
                    ++ [newEvent] |}
        /\ e_details newEvent = trim (AddEventModal.details m)
        /\ e_details newEvent <> []
        /\ trim (e_details newEvent) = e_details newEvent
        /\ e_locked newEvent = true
        /\ e_roles newEvent = ∅
        /\ addEventDate (AddEventModal.parent m') = []
        /\ AddEventModal.error m' = AddEventModal.error m).
Proof.
  intros s m'. subst s m'. unfold AddEventModal.handleSave. split.
  - intros ->. by split.
  - intros Hnonblank.
    destruct (trim (AddEventModal.details m)) as [|c t] eqn:Htrim; [done|].
    simpl. rewrite <- Htrim. eexists. split; [apply lookup_insert_eq|].
    simpl. repeat split; try done.
    + rewrite Htrim. discriminate.
    + apply trim_idempotent.
Qed.

Example add_event_dialog_save_witness :
  let m := {| AddEventModal.details := js " Iftar ";
              AddEventModal.error := [];
              AddEventModal.parent := handleAddEventClick sampleDate sampleState |} in
  let m' :=
    AddEventModal.handleSave GridState (handleSaveNewEvent (js "e-2") 1)
      addEventOnOpenChange m in
  exists newEvent,
    daysData (AddEventModal.parent m') !! sampleDate
    = Some {| events := [sampleEvent; newEvent] |}
    /\ e_details newEvent = js "Iftar"
    /\ e_locked newEvent = true
    /\ e_roles newEvent = ∅
    /\ addEventDate (AddEventModal.parent m') = [].
Proof.
  intros m m'.
  destruct (proj2 (add_event_dialog_save (js "e-2") 1 m)
              ltac:(vm_compute; discriminate))
    as (newEvent & Hday & Hdetails & _ & _ & Hlocked & Hroles & Hclosed & _).
  exists newEvent. split; [exact Hday|]. split; [exact Hdetails|].
  split; [exact Hlocked|]. split; [exact Hroles|exact Hclosed].
Defined.

(** X20. Week navigation never leaves the bounds: starting from a week
    that is navigable, any sequence of presses of the previous-week and
    next-week buttons ends on a navigable week, a press that would leave
    the bounds changing nothing. *)
Theorem week_navigation_stays_in_bounds (addWeeks subWeeks : Z -> Z -> Z)
    (bounds : NavigationBounds) (n : NavState) (presses : list WeekButton) :
  canNavigateToWeek (weekStart n) bounds = true ->
  canNavigateToWeek
    (weekStart (fold_left (pressWeekButton addWeeks subWeeks bounds) presses n))
    bounds = true
  /\ (canGoPrev subWeeks bounds n = false ->
      handlePrevWeek subWeeks bounds n = n)
  /\ (canGoNext addWeeks bounds n = false ->
      handleNextWeek addWeeks bounds n = n).
Proof.
  intros Hnav. split.
  - revert n Hnav. induction presses as [|b presses IH]; intros n Hnav;
      [exact Hnav|].
    simpl. apply IH. destruct b; simpl.
    + unfold handlePrevWeek. destruct (canGoPrev subWeeks bounds n) eqn:Hgo;
        [exact Hgo|exact Hnav].
    + unfold handleNextWeek. destruct (canGoNext addWeeks bounds n) eqn:Hgo;
        [exact Hgo|exact Hnav].
  - split; intros Hno.
    + unfold handlePrevWeek. by rewrite Hno.
    + unfold handleNextWeek. by rewrite Hno.
Qed.

(** Weeks counted in milliseconds, as date-fns does away from a change of
    daylight saving time. *)
Example week_navigation_stays_in_bounds_witness :
  let addWeeks := fun d k => (d + k * 604800000)%Z in
  let subWeeks := fun d k => (d - k * 604800000)%Z in
  let bounds := {| minDate := 0; maxDate := 1000000000 |} in
  canNavigateToWeek
    (weekStart
       (fold_left (pressWeekButton addWeeks subWeeks bounds)
          [PrevWeek; NextWeek; NextWeek; NextWeek]
          {| weekStart := 0; slideDirection := slideRight |}))
    bounds = true.
Proof.
  intros addWeeks subWeeks bounds.
  apply (week_navigation_stays_in_bounds addWeeks subWeeks bounds
           {| weekStart := 0; slideDirection := slideRight |}
           [PrevWeek; NextWeek; NextWeek; NextWeek]).
  reflexivity.
Defined.

(** X21. Signing up in the detail modal, the component wired to the grid.
    Without an open form for the role, or without a displayed event,
    nothing happens.  With a name that is empty after trimming, a phone
    that does not reduce to ten digits, or a candidate that duplicates a
    volunteer of the displayed event's role, the grid is unchanged and the
    form stays open with what was typed and a non-empty message.  In every
    other case the grid's [handleAddVolunteer] is called once, for the
    displayed event and the role, with the trimmed non-empty name and the
    ten-digit cleaned phone, and the form is closed. *)
Theorem detail_modal_handleAddVolunteer (toLowerCase : jsstring -> jsstring)
    (newId roleId : jsstring) (m : DetailState) :
  let m' := EventDetailModal.handleAddVolunteer toLowerCase newId roleId m in
  (selectedEvent (grid m) = None \/ addForms m !! roleId = None -> m' = m)
  /\ (forall event form,
        selectedEvent (grid m) = Some event ->
        addForms m !! roleId = Some form ->
        (trim (f_name form) = []
         \/ length (stripNonDigits (f_phone form)) <> 10%nat
         \/ isDuplicateVolunteer toLowerCase
              (roleVolunteers (e_roles event) roleId)
              (f_name form) (f_phone form) = true ->
         grid m' = grid m
         /\ exists form',
              addForms m' !! roleId = Some form'
              /\ f_name form' = f_name form /\ f_phone form' = f_phone form
              /\ f_error form' <> [])
        /\ (trim (f_name form) <> [] ->
            length (stripNonDigits (f_phone form)) = 10%nat ->
            isDuplicateVolunteer toLowerCase
              (roleVolunteers (e_roles event) roleId)
              (f_name form) (f_phone form) = false ->
            grid m'
            = CalendarGrid.handleAddVolunteer (e_id event) roleId
                {| v_id := newId; v_name := trim (f_name form);
                   v_phone := stripNonDigits (f_phone form) |} (grid m)
            /\ isTenDigitString (stripNonDigits (f_phone form)) = true
            /\ addForms m' !! roleId = None)).
Proof.
  intros m'. subst m'. unfold EventDetailModal.handleAddVolunteer. split.
  - intros [Hnone|Hnone].
    + by rewrite Hnone.
    + destruct (selectedEvent (grid m)); [|reflexivity]. by rewrite Hnone.
  - intros event form Hsel Hform. rewrite Hsel, Hform.
    rewrite isDuplicateVolunteer_trim. unfold isValidPhone, cleanPhone.
    split.
    + intros Hbad.
      destruct (isEmpty (trim (f_name form))) eqn:Hname.
      { split; [reflexivity|]. eexists. split; [apply lookup_insert_eq|].
        by repeat split. }
      destruct (Nat.eqb_spec (length (stripNonDigits (f_phone form))) 10)
        as [Hlen|Hlen]; simpl.
      2:{ split; [reflexivity|]. eexists. split; [apply lookup_insert_eq|].
          by repeat split. }
      destruct (isDuplicateVolunteer toLowerCase _ (f_name form) (f_phone form))
        eqn:Hdup.
      { split; [reflexivity|]. eexists. split; [apply lookup_insert_eq|].
        by repeat split. }
      exfalso. destruct Hbad as [Hn|[Hp|Hd]]; [|contradiction|discriminate].
      by rewrite Hn in Hname.
    + intros Hname Hlen Hfresh.
      destruct (trim (f_name form)) as [|c t] eqn:Htrim; [done|]. simpl.
      rewrite Hlen, Hfresh. simpl. split; [reflexivity|]. split.
      * unfold isTenDigitString. by rewrite forallb_isDigit_strip, Hlen.
      * apply lookup_delete_eq.
Qed.

(** In the session where "Ali" is signed up: a second signup under the
    same name and phone is refused, and "Omar" is accepted. *)
Example detail_modal_handleAddVolunteer_witness :
  let refused :=
    {| addForms :=
         {[ js "role-4" :=
              {| f_roleId := Some (js "role-4"); f_name := js "ali";
                 f_phone := js "(312) 555-0199"; f_error := [] |} ]};
       grid := rosterState |} in
  let accepted :=
    {| addForms := {[ js "role-4" := omarForm ]}; grid := rosterState |} in
  (grid (EventDetailModal.handleAddVolunteer asciiLowerCase (js "v-2")
           (js "role-4") refused) = rosterState
   /\ exists form',
        addForms (EventDetailModal.handleAddVolunteer asciiLowerCase (js "v-2")
                    (js "role-4") refused) !! js "role-4" = Some form'
        /\ f_name form' = js "ali" /\ f_phone form' = js "(312) 555-0199"
        /\ f_error form' <> [])
  /\ (grid (EventDetailModal.handleAddVolunteer asciiLowerCase (js "v-2")
              (js "role-4") accepted)
      = CalendarGrid.handleAddVolunteer (js "e-1") (js "role-4")
          {| v_id := js "v-2"; v_name := js "Omar";
             v_phone := js "3125550100" |} rosterState
      /\ addForms (EventDetailModal.handleAddVolunteer asciiLowerCase
                     (js "v-2") (js "role-4") accepted) !! js "role-4" = None).
Proof.
  intros refused accepted. split.
  - apply (proj1 (proj2 (detail_modal_handleAddVolunteer asciiLowerCase
                           (js "v-2") (js "role-4") refused)
                    rosterEvent
                    {| f_roleId := Some (js "role-4"); f_name := js "ali";
                       f_phone := js "(312) 555-0199"; f_error := [] |}
                    eq_refl eq_refl)).
    right. right. reflexivity.
  - destruct (proj2 (proj2 (detail_modal_handleAddVolunteer asciiLowerCase
                              (js "v-2") (js "role-4") accepted)
                       rosterEvent omarForm eq_refl eq_refl)
                ltac:(vm_compute; discriminate) eq_refl eq_refl)
      as (Hgrid & _ & Hclosed).
    split; [exact Hgrid|exact Hclosed].
Defined.

(** X22. The detail modal keeps the rosters well formed.  When the
    selection is in step with the days data and the displayed event's
    sequence for the role has no two entries with the same trimmed
    lower-cased name and phone, and stores only ten-digit phones, the same
    holds of the displayed event after [handleAddVolunteer] of the modal,
    whatever was typed. *)
Theorem detail_modal_keeps_roster_well_formed
    (toLowerCase : jsstring -> jsstring) (newId roleId : jsstring)
    (m : DetailState) (event : Event) :
  inSync (grid m) ->
  selectedEvent (grid m) = Some event ->
  NoDup (List.map (duplicateKey toLowerCase)
           (roleVolunteers (e_roles event) roleId)) ->
  (forall v, In v (roleVolunteers (e_roles event) roleId) ->
             isTenDigitString (v_phone v) = true) ->
  exists event',
    selectedEvent
      (grid (EventDetailModal.handleAddVolunteer toLowerCase newId roleId m))
    = Some event'
    /\ e_id event' = e_id event
    /\ NoDup (List.map (duplicateKey toLowerCase)
                (roleVolunteers (e_roles event') roleId))
    /\ (forall v, In v (roleVolunteers (e_roles event') roleId) ->
                  isTenDigitString (v_phone v) = true).
Proof.
  intros Hsync Hsel Hkeys Hphones.
  unfold EventDetailModal.handleAddVolunteer. rewrite Hsel.
  destruct (addForms m !! roleId) as [form|]; [|by exists event].
  destruct (isEmpty (trim (f_name form))); [by exists event|].
  destruct (isValidPhone (f_phone form)) eqn:Hvalid; simpl; [|by exists event].
  destruct (isDuplicateVolunteer toLowerCase _ (trim (f_name form)) (f_phone form))
    eqn:Hdup; [by exists event|].
  simpl.
  unfold inSync in Hsync. rewrite Hsel in Hsync.
  destruct Hsync as (dayState & Hday & Hfound).
  change (CalendarGrid.handleAddVolunteer ?e ?r ?v ?s)
    with (updateSelectedDay e
            (fun e0 =>
               withRoles e0
                 (<[r := roleVolunteers (e_roles e0) r ++ [v]]> (e_roles e0))) s).
  rewrite (updateSelectedDay_selectedEvent _ _ _ dayState Hday).
  rewrite findEvent_map by (by apply rewrite_keeps_id).
  rewrite Hfound. simpl.
  rewrite bool_decide_eq_true_2 by reflexivity.
  eexists. split; [reflexivity|]. simpl. split; [reflexivity|].
  rewrite roleVolunteers_insert_eq. split.
  - rewrite <- (trim_idempotent (f_name form)).
    apply keys_distinct_snoc; [exact Hkeys|].
    by rewrite isDuplicateVolunteer_trim in *.
  - intros v Hv. apply in_app_or in Hv as [Hv|[<-|[]]]; [by apply Hphones|].
    simpl. unfold isValidPhone in Hvalid. unfold cleanPhone, isTenDigitString.
    rewrite Hvalid, forallb_isDigit_strip. exact Hvalid.
Qed.

(** "Omar" signs up after "Ali": the roster on display has two entries
    with distinct keys and ten-digit phones. *)
Example detail_modal_keeps_roster_well_formed_witness :
  let m := {| addForms := {[ js "role-4" := omarForm ]}; grid := rosterState |} in
  exists event',
    selectedEvent
      (grid (EventDetailModal.handleAddVolunteer asciiLowerCase (js "v-2")
               (js "role-4") m))
    = Some event'
    /\ List.map v_name (roleVolunteers (e_roles event') (js "role-4"))
       = [js "Ali"; js "Omar"]
    /\ NoDup (List.map (duplicateKey asciiLowerCase)
                (roleVolunteers (e_roles event') (js "role-4")))
    /\ (forall v, In v (roleVolunteers (e_roles event') (js "role-4")) ->
                  isTenDigitString (v_phone v) = true).
Proof.
  intros m.
  destruct (detail_modal_keeps_roster_well_formed asciiLowerCase (js "v-2")
              (js "role-4") m rosterEvent)
    as (event' & Hsel & _ & Hkeys & Hphones).
  - exists {| events := [rosterEvent] |}. split; reflexivity.
  - reflexivity.
  - vm_compute. apply NoDup_singleton.
  - intros v [<-|[]]. reflexivity.
  - exists event'. split; [exact Hsel|].
    split; [|split; [exact Hkeys|exact Hphones]].
    assert (Hev : Some event'
                  = Some (withRoles rosterEvent
                            (<[js "role-4" :=
                                 roleVolunteers (e_roles rosterEvent) (js "role-4")
                                 ++ [ {| v_id := js "v-2"; v_name := js "Omar";
                                         v_phone := js "3125550100" |} ]]>
                               (e_roles rosterEvent))))
      by (rewrite <- Hsel; reflexivity).
    injection Hev as ->. reflexivity.
Defined.

(** X23. A signup that passes the three checks of the signup modal calls
    [onAddVolunteer] exactly once, for the event and role of the form, with
    an entry holding the fresh id, the trimmed name, which is not empty,
    and the digits of the phone, which are exactly ten; the form is then
    cleared. *)
Theorem signup_handleAddVolunteer_accepts
    (toLowerCase : jsstring -> jsstring) (Parent : Type)
    (onAddVolunteer : jsstring -> jsstring -> VolunteerEntry -> Parent -> Parent)
    (newId eventId roleId : jsstring) (existingVolunteers : list VolunteerEntry)
    (m : ModalState Parent) :
  let typed := getInputState (inputs m) eventId roleId in
  trim (i_name typed) <> [] ->
  length (stripNonDigits (i_phone typed)) = 10%nat ->
  isDuplicateVolunteer toLowerCase existingVolunteers
    (i_name typed) (i_phone typed) = false ->
  let m' :=
    VolunteerSignupModal.handleAddVolunteer toLowerCase Parent onAddVolunteer
      newId eventId roleId existingVolunteers m in
  VolunteerSignupModal.parent m'
  = onAddVolunteer eventId roleId
      {| v_id := newId; v_name := trim (i_name typed);
         v_phone := stripNonDigits (i_phone typed) |}
      (VolunteerSignupModal.parent m)
  /\ isTenDigitString (stripNonDigits (i_phone typed)) = true
  /\ getInputState (inputs m') eventId roleId
     = {| i_name := []; i_phone := []; i_error := [] |}.
Proof.
  intros typed Hname Hlen Hfresh m'. subst m'.
  unfold VolunteerSignupModal.handleAddVolunteer. fold typed.
  rewrite isDuplicateVolunteer_trim, Hfresh.
  unfold isValidPhone, cleanPhone. rewrite Hlen.
  destruct (trim (i_name typed)) as [|c t] eqn:Htrim; [done|]. simpl.
  split; [reflexivity|]. split.
  - unfold isTenDigitString. by rewrite forallb_isDigit_strip, Hlen.
  - unfold getInputState at 1. simpl. by rewrite !lookup_insert_eq.
Qed.

Example signup_handleAddVolunteer_accepts_witness :
  let m := {| inputs :=
                {[ js "e-1" :=
                     {[ js "role-4" :=
                          {| i_name := js " Ali "; i_phone := js "(312) 555-0199";
                             i_error := [] |} ]} ]};
              VolunteerSignupModal.parent := sampleState |} in
  VolunteerSignupModal.parent
    (VolunteerSignupModal.handleAddVolunteer asciiLowerCase GridState
       CalendarGrid.handleAddVolunteer (js "v-1") (js "e-1") (js "role-4") [] m)
  = CalendarGrid.handleAddVolunteer (js "e-1") (js "role-4")
      {| v_id := js "v-1"; v_name := js "Ali"; v_phone := js "3125550199" |}
      sampleState.
Proof.
  intros m.
  destruct (signup_handleAddVolunteer_accepts asciiLowerCase GridState
              CalendarGrid.handleAddVolunteer (js "v-1") (js "e-1")
              (js "role-4") [] m) as (Hparent & _).
  - vm_compute. discriminate.
  - reflexivity.
  - reflexivity.
  - exact Hparent.
Defined.

(** X24. Typing a phone in one form of the signup modal stores the masked
    value in that form, clears its message and keeps its name; the forms of
    every other event and role, and the parent's state, are untouched. *)
Theorem signup_handlePhoneChange_frame (Parent : Type)
    (eventId roleId value : jsstring) (m : ModalState Parent) :
  let m' := handlePhoneChange Parent eventId roleId value m in
  getInputState (inputs m') eventId roleId
  = {| i_name := i_name (getInputState (inputs m) eventId roleId);
       i_phone := maskPhoneInput value; i_error := [] |}
  /\ (forall eventId' roleId',
        (eventId', roleId') <> (eventId, roleId) ->
        getInputState (inputs m') eventId' roleId'
        = getInputState (inputs m) eventId' roleId')
  /\ VolunteerSignupModal.parent m' = VolunteerSignupModal.parent m.
Proof.
  intros m'. subst m'. unfold handlePhoneChange.
  split; [by rewrite getInputState_updateInput|]. split; [|reflexivity].
  intros eventId' roleId' Hne. unfold updateInput, getInputState at 1. simpl.
  destruct (decide (eventId = eventId')) as [<-|Hev].
  - rewrite lookup_insert_eq.
    assert (Hrole : roleId <> roleId') by congruence.
    rewrite lookup_insert_ne by exact Hrole.
    unfold getInputState. by destruct (inputs m !! eventId).
  - rewrite lookup_insert_ne by exact Hev. reflexivity.
Qed.

(** X25. Adding a role through the dialog.  A name that is blank after
    trimming is refused with "Role name is required" and the roles are
    unchanged.  Otherwise one role is appended after the existing ones,
    which are kept, with the fresh id, the trimmed non-empty name as label,
    a minimum of one volunteer and not marked default, and the dialog is
    closed; no check is made against the labels already present. *)
Theorem add_role_dialog_add (newId : jsstring)
    (m : AddRoleDialog.State (list RoleDefinition * bool)) :
  let m' :=
    AddRoleDialog.handleAdd (list RoleDefinition * bool)
      (fun roleName p => (handleAddRole newId roleName p.1, p.2))
      (fun open p => (p.1, open)) m in
  let roles := (AddRoleDialog.parent m).1 in
  (trim (AddRoleDialog.roleName m) = [] ->
   AddRoleDialog.parent m' = AddRoleDialog.parent m
   /\ AddRoleDialog.error m' = js "Role name is required")
  /\ (trim (AddRoleDialog.roleName m) <> [] ->
      exists role,
        AddRoleDialog.parent m' = (roles ++ [role], false)
        /\ r_id role = newId
        /\ r_label role = trim (AddRoleDialog.roleName m)
        /\ r_label role <> []
        /\ r_minVolunteers role = 1%Z
        /\ r_isDefault role = Some false
        /\ (forall event, e_roles event !! newId = None ->
              getCoverageStatus event role
              = {| current := 0; minimum := 1; isMet := false |})).
Proof.
  intros m' roles. subst m' roles. unfold AddRoleDialog.handleAdd. split.
  - intros ->. by split.
  - intros Hnonblank.
    destruct (trim (AddRoleDialog.roleName m)) as [|c t] eqn:Htrim; [done|].
    simpl. eexists. split; [reflexivity|]. simpl. repeat split; try done.
    intros event Hnone. unfold getCoverageStatus, roleVolunteers. simpl.
    by rewrite Hnone.
Qed.

Example add_role_dialog_add_witness :
  let m := {| AddRoleDialog.roleName := js " Setup crew ";
              AddRoleDialog.error := [];
              AddRoleDialog.parent := (getDefaultRoles, true) |} in
  exists role,
    AddRoleDialog.parent
      (AddRoleDialog.handleAdd (list RoleDefinition * bool)
         (fun roleName p => (handleAddRole (js "role-5") roleName p.1, p.2))
         (fun open p => (p.1, open)) m)
    = (getDefaultRoles ++ [role], false)
    /\ r_id role = js "role-5"
    /\ r_label role = js "Setup crew"
    /\ r_minVolunteers role = 1%Z
    /\ r_isDefault role = Some false.
Proof.
  intros m.
  destruct (proj2 (add_role_dialog_add (js "role-5") m)
              ltac:(vm_compute; discriminate))
    as (role & Hparent & Hid & Hlabel & _ & Hmin & Hdefault & _).
  exists role. split; [exact Hparent|]. split; [exact Hid|].
  split; [exact Hlabel|]. split; [exact Hmin|exact Hdefault].
Defined.

(** X26. The day card.  Collapsed, it shows the first events of the day, at
    most three, and offers "+N more" exactly when something is hidden, N
    being the number of events not shown; expanded, it shows every event
    and offers "Show less" exactly when there are more than three; the two
    buttons are never offered together. *)
Theorem day_card_visible_events (evs : list Event) :
  (DayCard.visibleEvents false evs ++ drop 3 evs = evs
   /\ (length (DayCard.visibleEvents false evs) <= 3)%nat
   /\ (DayCard.showsMore false evs = true
       <-> DayCard.visibleEvents false evs <> evs)
   /\ (DayCard.showsMore false evs = true ->
       DayCard.hiddenCount evs
       = Z.of_nat (length evs - length (DayCard.visibleEvents false evs))))
  /\ (DayCard.visibleEvents true evs = evs
      /\ DayCard.showsMore true evs = false
      /\ (DayCard.showsLess true evs = true <-> (3 < length evs)%nat))
  /\ (forall showAll,
        DayCard.showsMore showAll evs && DayCard.showsLess showAll evs = false).
Proof.
  unfold DayCard.visibleEvents, DayCard.showsMore, DayCard.showsLess,
    DayCard.hiddenCount, DayCard.MAX_VISIBLE.
  assert (Hmore : (Z.of_nat (length evs) - Z.of_nat 3 >? 0)%Z = true
                  <-> (3 < length evs)%nat).
  { rewrite Z.gtb_ltb, Z.ltb_lt. lia. }
  split; [|split].
  - split; [apply take_drop|]. split; [rewrite length_take; lia|]. split.
    + rewrite andb_true_r, Hmore. split.
      * intros Hlen Heq. apply (f_equal length) in Heq.
        rewrite length_take in Heq. lia.
      * intros Hne. destruct (Nat.lt_ge_cases 3 (length evs)) as [|Hle];
          [assumption|].
        exfalso. apply Hne. by apply take_ge.
    + rewrite andb_true_r, Hmore. intros Hlen. rewrite length_take. lia.
  - split; [reflexivity|]. split; [apply andb_false_r|].
    simpl. apply Nat.ltb_lt.
  - intros [|]; simpl; [by rewrite andb_false_r|apply andb_false_r].
Qed.

(** * The volunteer count of an event *)

Lemma totalVolunteers_insert (e : Event) (roleId : jsstring)
    (vs : list VolunteerEntry) :
  (totalVolunteers (withRoles e (<[roleId := vs]> (e_roles e)))
   + length (roleVolunteers (e_roles e) roleId)
   = totalVolunteers e + length vs)%nat.
Proof.
  unfold totalVolunteers, roleVolunteers. simpl.
  set (f := fun (_ : jsstring) (volunteers : list VolunteerEntry) (sum : nat) =>
              (sum + length volunteers)%nat).
  assert (Hcomm : forall (m : gmap jsstring (list VolunteerEntry))
                         j1 j2 z1 z2 y,
            j1 <> j2 -> m !! j1 = Some z1 -> m !! j2 = Some z2 ->
            f j1 z1 (f j2 z2 y) = f j2 z2 (f j1 z1 y)).
  { intros. unfold f. lia. }
  destruct (e_roles e !! roleId) as [old|] eqn:Hold; simpl.
  - rewrite <- (insert_delete_eq (e_roles e)).
    rewrite (map_fold_insert_L f) by (apply Hcomm || apply lookup_delete_eq).
    rewrite (map_fold_delete_L f 0%nat roleId old (e_roles e))
      by (apply Hcomm || exact Hold).
    unfold f. lia.
  - rewrite (map_fold_insert_L f) by (apply Hcomm || exact Hold).
    unfold f. lia.
Qed.

(** X27. The number of volunteers shown on an event card follows the
    rosters: on the selected day, adding a volunteer raises the count of
    every event with the given id by exactly one, and removing one never
    raises it and leaves it as it is when the id is absent from the role,
    also when the event had no entry for the role. *)
Theorem totalVolunteers_follows_handlers (eventId roleId : jsstring)
    (s : GridState) (dayState : DayState) :
  daysData s !! selectedEventDate s = Some dayState ->
  (forall volunteer, exists evs',
      daysData (CalendarGrid.handleAddVolunteer eventId roleId volunteer s)
        !! selectedEventDate s = Some {| events := evs' |}
      /\ forall i e, events dayState !! i = Some e -> e_id e = eventId ->
           exists e', evs' !! i = Some e'
             /\ totalVolunteers e' = (totalVolunteers e + 1)%nat)
  /\ (forall volunteerId, exists evs',
        daysData (handleRemoveVolunteer eventId roleId volunteerId s)
          !! selectedEventDate s = Some {| events := evs' |}
        /\ forall i e, events dayState !! i = Some e -> e_id e = eventId ->
             exists e', evs' !! i = Some e'
               /\ (totalVolunteers e' <= totalVolunteers e)%nat
               /\ ((forall v, In v (roleVolunteers (e_roles e) roleId) ->
                              v_id v <> volunteerId) ->
                   totalVolunteers e' = totalVolunteers e)).
Proof.
  intros Hday. split.
  - intros volunteer.
    change (CalendarGrid.handleAddVolunteer eventId roleId volunteer s)
      with (updateSelectedDay eventId
              (fun e =>
                 withRoles e
                   (<[roleId := roleVolunteers (e_roles e) roleId ++ [volunteer]]>
                      (e_roles e))) s).
    rewrite (updateSelectedDay_daysData _ _ s dayState Hday).
    eexists. split; [apply lookup_insert_eq|].
    intros i e Hi He.
    change (List.map ?g ?l) with (g <$> l).
    rewrite list_lookup_fmap, Hi. simpl.
    rewrite bool_decide_eq_true_2 by exact He.
    eexists. split; [reflexivity|].
    pose proof (totalVolunteers_insert e roleId
                  (roleVolunteers (e_roles e) roleId ++ [volunteer])) as Htot.
    rewrite length_app in Htot. simpl in Htot. lia.
  - intros volunteerId. rewrite handleRemoveVolunteer_shape.
    rewrite (updateSelectedDay_daysData _ _ s dayState Hday).
    eexists. split; [apply lookup_insert_eq|].
    intros i e Hi He.
    change (List.map ?g ?l) with (g <$> l).
    rewrite list_lookup_fmap, Hi. simpl.
    rewrite bool_decide_eq_true_2 by exact He.
    eexists. split; [reflexivity|].
    set (kept := List.filter
                   (fun v => negb (bool_decide (v_id v = volunteerId)))
                   (roleVolunteers (e_roles e) roleId)).
    pose proof (totalVolunteers_insert e roleId kept) as Htot.
    pose proof (sublist_length _ _
                  (filter_sublist
                     (fun v => negb (bool_decide (v_id v = volunteerId)))
                     (roleVolunteers (e_roles e) roleId))) as Hlen.
    fold kept in Hlen.
    assert (Hkept : (forall v, In v (roleVolunteers (e_roles e) roleId) ->
                               v_id v <> volunteerId) ->
                    kept = roleVolunteers (e_roles e) roleId).
    { intros Habsent. apply filter_all_kept. intros v Hv.
      apply negb_true_iff, bool_decide_eq_false. by apply Habsent. }
    clearbody kept. split; [lia|].
    intros Habsent. rewrite (Hkept Habsent) in Htot |- *. lia.
Qed.

Example totalVolunteers_follows_handlers_witness :
  exists evs',
    daysData (CalendarGrid.handleAddVolunteer (js "e-1") (js "role-4")
                {| v_id := js "v-1"; v_name := js "Ali";
                   v_phone := js "3125550199" |} sampleState)
      !! sampleDate = Some {| events := evs' |}.
Proof.
  destruct (proj1 (totalVolunteers_follows_handlers (js "e-1") (js "role-4")
                     sampleState {| events := [sampleEvent] |} eq_refl)
              {| v_id := js "v-1"; v_name := js "Ali";
                 v_phone := js "3125550199" |}) as (evs' & Hday & _).
  by exists evs'.
Defined.

(** * The lock protects the details *)

Lemma unique_id_eq (evs : list Event) (a b : Event) :
  NoDup (List.map e_id evs) -> In a evs -> In b evs -> e_id a = e_id b ->
  a = b.
Proof.
  induction evs as [|x evs IH]; simpl; [done|].
  intros Hnd Ha Hb Hid. apply NoDup_cons in Hnd as [Hx Hnd].
  assert (Hfresh : forall c, In c evs -> e_id c <> e_id x).
  { intros c Hc Heq. apply Hx. rewrite <- Heq.
    apply list_elem_of_In. by apply in_map. }
  destruct Ha as [<-|Ha], Hb as [<-|Hb].
  - reflexivity.
  - exfalso. by apply (Hfresh b Hb).
  - exfalso. by apply (Hfresh a Ha).
  - by apply IH.
Qed.

(** With unique ids, a locked event of the selected day is not the
    unlocked event on display. *)
Lemma locked_is_not_displayed (s : GridState) (event e : Event)
    (dayState : DayState) :
  inSync s ->
  selectedEvent s = Some event ->
  e_locked event = false ->
  daysData s !! selectedEventDate s = Some dayState ->
  NoDup (List.map e_id (events dayState)) ->
  In e (events dayState) ->
  e_locked e = true ->
  e_id e <> e_id event.
Proof.
  intros Hsync Hsel Hunlocked Hday Hnd Hin Hlocked Hid.
  unfold inSync in Hsync. rewrite Hsel in Hsync.
  destruct Hsync as (ds & Hds & Hfound).
  rewrite Hday in Hds. injection Hds as <-.
  apply findEvent_Some in Hfound as [Hev _].
  assert (e = event) by by apply (unique_id_eq (events dayState)).
  congruence.
Qed.

Lemma updateDetails_other (eventId details : jsstring) (e : Event) :
  e_id e <> eventId -> updateDetails eventId details e = e.
Proof.
  intros Hne. unfold updateDetails.
  by rewrite bool_decide_eq_false_2.
Qed.

(** What the lock button does to the days data when it saves. *)
Lemma lock_click_daysData (editedDetails : jsstring) (s : GridState)
    (event : Event) (dayState : DayState) :
  selectedEvent s = Some event ->
  e_locked event = false ->
  trim editedDetails <> [] ->
  daysData s !! selectedEventDate s = Some dayState ->
  daysData (handleToggleLockClick editedDetails s)
  = <[selectedEventDate s :=
        {| events :=
             List.map
               (fun e =>
                  if bool_decide (e_id e = e_id event)
                  then withLocked e (negb (e_locked e)) else e)
               (List.map (updateDetails (e_id event) (trim editedDetails))
                         (events dayState)) |}]> (daysData s).
Proof.
  intros Hsel Hunlocked Hnonblank Hday. unfold handleToggleLockClick.
  rewrite Hsel, Hunlocked.
  destruct (trim editedDetails) as [|c t] eqn:Htrim; [done|].
  simpl. rewrite <- Htrim. set (text := trim editedDetails).
  set (s1 := handleUpdateEvent (e_id event) text s).
  assert (Hdate : selectedEventDate s1 = selectedEventDate s)
    by apply handleUpdateEvent_selectedEventDate.
  assert (Hdays1 : daysData s1
                   = <[selectedEventDate s :=
                         {| events := List.map (updateDetails (e_id event) text)
                                               (events dayState) |}]>
                       (daysData s)).
  { unfold s1. by rewrite handleUpdateEvent_daysData, Hday. }
  rewrite handleToggleLock_shape.
  rewrite (updateSelectedDay_daysData _ _ s1
             {| events := List.map (updateDetails (e_id event) text)
                                   (events dayState) |}).
  - simpl. rewrite Hdate, Hdays1. apply insert_insert_eq.
  - rewrite Hdate, Hdays1. apply lookup_insert_eq.
Qed.

(** C1. The details of an event change only while it is unlocked.  In a
    state where the displayed event is the one its id finds on the selected
    day and the events of that day have distinct ids, as in every state the
    interface reaches, the update-event-details operation is only applied
    by the lock button, to the displayed event and when that event is
    unlocked; applied there, [handleUpdateEvent] leaves every event whose
    locked flag is true, on any day, in its place with its details
    unchanged, and so does the whole click of the lock button, whatever
    text was typed and whether the displayed event is locked or not. *)
Theorem locked_details_unchanged_by_update (s : GridState) :
  inSync s ->
  (forall dayState,
     daysData s !! selectedEventDate s = Some dayState ->
     NoDup (List.map e_id (events dayState))) ->
  forall (date : jsstring) (dayState : DayState) (i : nat) (e : Event),
    daysData s !! date = Some dayState ->
    events dayState !! i = Some e ->
    e_locked e = true ->
    (forall event details,
       selectedEvent s = Some event -> e_locked event = false ->
       exists dayState' e',
         daysData (handleUpdateEvent (e_id event) details s) !! date
         = Some dayState'
         /\ events dayState' !! i = Some e'
         /\ e' = e)
    /\ (forall editedDetails,
          exists dayState' e',
            daysData (handleToggleLockClick editedDetails s) !! date
            = Some dayState'
            /\ events dayState' !! i = Some e'
            /\ e_id e' = e_id e
            /\ e_locked e' = true
            /\ e_details e' = e_details e).
Proof.
  intros Hsync Hunique date dayState i e Hday Hi Hlocked.
  assert (Hin : In e (events dayState)).
  { apply list_elem_of_In. by apply list_elem_of_lookup_2 with i. }
  assert (Hother : forall event,
            selectedEvent s = Some event -> e_locked event = false ->
            date = selectedEventDate s -> e_id e <> e_id event).
  { intros event Hsel Hunlocked ->.
    apply (locked_is_not_displayed s event e dayState); auto. }
  split.
  - intros event details Hsel Hunlocked.
    rewrite handleUpdateEvent_daysData.
    destruct (decide (date = selectedEventDate s)) as [Hdate|Hdate].
    + pose proof (Hother event Hsel Hunlocked Hdate) as Hne. subst date.
      rewrite Hday, lookup_insert_eq. eexists _, _. split; [reflexivity|].
      simpl. change (List.map ?g ?l) with (g <$> l).
      rewrite list_lookup_fmap, Hi. simpl. split; [reflexivity|].
      by apply updateDetails_other.
    + exists dayState, e. split; [|by split].
      destruct (daysData s !! selectedEventDate s); [|exact Hday].
      by rewrite lookup_insert_ne.
  - intros editedDetails.
    destruct (selectedEvent s) as [event|] eqn:Hsel.
    2:{ exists dayState, e. unfold handleToggleLockClick. rewrite Hsel.
        by repeat split. }
    destruct (e_locked event) eqn:Hlock.
    { exists dayState, e. unfold handleToggleLockClick. rewrite Hsel, Hlock.
      by repeat split. }
    destruct (trim editedDetails) as [|c t] eqn:Htrim.
    { exists dayState, e. unfold handleToggleLockClick.
      rewrite Hsel, Hlock, Htrim. by repeat split. }
    destruct (daysData s !! selectedEventDate s) as [ds|] eqn:Hsday.
    2:{ unfold inSync in Hsync. rewrite Hsel in Hsync.
        destruct Hsync as (ds & Hds & _). congruence. }
    rewrite (lock_click_daysData editedDetails s event ds Hsel Hlock)
      by (by rewrite ?Htrim).
    destruct (decide (date = selectedEventDate s)) as [Hdate|Hdate].
    + pose proof (Hother event eq_refl Hlock Hdate) as Hne. subst date.
      rewrite Hday in Hsday. injection Hsday as <-.
      rewrite lookup_insert_eq. eexists _, _. split; [reflexivity|].
      simpl. change (List.map ?g ?l) with (g <$> l).
      rewrite !list_lookup_fmap, Hi. simpl. split; [reflexivity|].
      rewrite (updateDetails_other _ _ e Hne).
      rewrite bool_decide_eq_false_2 by exact Hne. by repeat split.
    + exists dayState, e. rewrite lookup_insert_ne by done. by repeat split.
Qed.

(** In the session with two events the second, unlocked, event is on
    display and "Lock & Save" is pressed with a new text: the first event,
    which is locked, keeps its details, in the call of [handleUpdateEvent]
    and after the click. *)
Example locked_details_unchanged_by_update_witness :
  (exists dayState' e',
     daysData (handleUpdateEvent (js "e-2") (js "Iftar dinner") twoEventState)
       !! sampleDate = Some dayState'
     /\ events dayState' !! 0%nat = Some e'
     /\ e' = sampleEvent)
  /\ (exists dayState' e',
        daysData (handleToggleLockClick (js " Iftar dinner ") twoEventState)
          !! sampleDate = Some dayState'
        /\ events dayState' !! 0%nat = Some e'
        /\ e_id e' = js "e-1"
        /\ e_locked e' = true
        /\ e_details e' = js "Jumuah Appeal").
Proof.
  assert (Hsync : inSync twoEventState).
  { exists {| events := [sampleEvent; withLocked secondEvent false] |}.
    split; reflexivity. }
  assert (Hunique : forall dayState,
            daysData twoEventState !! selectedEventDate twoEventState
            = Some dayState ->
            NoDup (List.map e_id (events dayState))).
  { intros dayState Hday.
    assert (dayState = {| events := [sampleEvent; withLocked secondEvent false] |})
      as -> by (vm_compute in Hday |- *; congruence).
    simpl. apply NoDup_cons. split; [|apply NoDup_singleton].
    intros Hin. apply list_elem_of_In in Hin. destruct Hin as [Heq|[]].
    vm_compute in Heq. discriminate. }
  destruct (locked_details_unchanged_by_update twoEventState Hsync Hunique
              sampleDate
              {| events := [sampleEvent; withLocked secondEvent false] |}
              0%nat sampleEvent eq_refl eq_refl eq_refl) as [Hcall Hclick].
  split.
  - apply (Hcall (withLocked secondEvent false) (js "Iftar dinner"));
      reflexivity.
  - apply (Hclick (js " Iftar dinner ")).
Defined.

(** ** The states the interface reaches *)

Lemma map_id_rewrite (g : Event -> Event) (evs : list Event) :
  (forall e, e_id (g e) = e_id e) ->
  List.map e_id (List.map g evs) = List.map e_id evs.
Proof. intros Hg. rewrite List.map_map. by apply List.map_ext. Qed.

Lemma findEvent_unique (evs : list Event) (event : Event) :
  NoDup (List.map e_id evs) -> In event evs ->
  findEvent (e_id event) evs = Some event.
Proof.
  intros Hnd Hin.
  destruct (findEvent_present (e_id event) evs) as [e He]; [by exists event|].
  rewrite He. f_equal. apply findEvent_Some in He as [Hine Hid].
  by apply (unique_id_eq evs).
Qed.

Lemma uniqueIds_updateSelectedDay (eventId : jsstring) (f : Event -> Event)
    (s : GridState) :
  (forall e, e_id (f e) = e_id e) ->
  uniqueIds s -> uniqueIds (updateSelectedDay eventId f s).
Proof.
  intros Hf Hs.
  destruct (daysData s !! selectedEventDate s) as [dayState|] eqn:Hday.
  2:{ by rewrite (updateSelectedDay_None _ _ s Hday). }
  intros date ds. rewrite (updateSelectedDay_daysData _ _ s dayState Hday).
  destruct (decide (selectedEventDate s = date)) as [<-|Hne].
  - rewrite lookup_insert_eq. intros [= <-]. simpl.
    rewrite map_id_rewrite by (by apply rewrite_keeps_id).
    by apply (Hs (selectedEventDate s)).
  - rewrite lookup_insert_ne by exact Hne. apply Hs.
Qed.

Lemma updateDetails_id (eventId details : jsstring) (e : Event) :
  e_id (updateDetails eventId details e) = e_id e.
Proof. unfold updateDetails. by destruct (bool_decide (e_id e = eventId)). Qed.

Lemma uniqueIds_handleUpdateEvent (eventId details : jsstring) (s : GridState) :
  uniqueIds s -> uniqueIds (handleUpdateEvent eventId details s).
Proof.
  intros Hs date ds. rewrite handleUpdateEvent_daysData.
  destruct (daysData s !! selectedEventDate s) as [dayState|] eqn:Hday;
    [|apply Hs].
  destruct (decide (selectedEventDate s = date)) as [<-|Hne].
  - rewrite lookup_insert_eq. intros [= <-]. simpl.
    rewrite map_id_rewrite by apply updateDetails_id.
    by apply (Hs (selectedEventDate s)).
  - rewrite lookup_insert_ne by exact Hne. apply Hs.
Qed.

Lemma inSync_handleUpdateEvent (eventId details : jsstring) (s : GridState) :
  inSync s -> inSync (handleUpdateEvent eventId details s).
Proof.
  intros Hsync. unfold inSync in *.
  rewrite handleUpdateEvent_selectedEventDate, handleUpdateEvent_daysData.
  assert (Hsel : selectedEvent (handleUpdateEvent eventId details s)
                 = updateDetails eventId details <$> selectedEvent s).
  { unfold handleUpdateEvent, updateDetails.
    destruct (selectedEvent s) as [sel|] eqn:Hcur; simpl; [|exact Hcur].
    destruct (bool_decide (e_id sel = eventId)); simpl;
      [reflexivity|exact Hcur]. }
  rewrite Hsel.
  destruct (selectedEvent s) as [sel|]; [|exact I]. simpl.
  destruct Hsync as (ds & Hds & Hfound). rewrite Hds.
  eexists. split; [apply lookup_insert_eq|]. simpl.
  rewrite updateDetails_id, findEvent_map by apply updateDetails_id.
  by rewrite Hfound.
Qed.

Lemma inSync_handleSaveNewEvent (newId : jsstring) (now : Z)
    (details : jsstring) (s : GridState) :
  inSync s -> inSync (handleSaveNewEvent newId now details s).
Proof.
  intros Hsync. unfold inSync in *.
  change (selectedEvent (handleSaveNewEvent newId now details s))
    with (selectedEvent s).
  change (selectedEventDate (handleSaveNewEvent newId now details s))
    with (selectedEventDate s).
  destruct (selectedEvent s) as [sel|]; [|exact I].
  destruct Hsync as (ds & Hds & Hfound). simpl.
  destruct (decide (addEventDate s = selectedEventDate s)) as [Heq|Hne].
  - rewrite Heq, lookup_insert_eq, Hds. simpl.
    eexists. split; [reflexivity|]. simpl. by apply findEvent_app.
  - rewrite lookup_insert_ne by exact Hne. by exists ds.
Qed.

Lemma uniqueIds_handleSaveNewEvent (newId : jsstring) (now : Z)
    (details : jsstring) (s : GridState) :
  idUnused newId s -> uniqueIds s ->
  uniqueIds (handleSaveNewEvent newId now details s).
Proof.
  intros Hnew Hs date ds. simpl.
  destruct (decide (addEventDate s = date)) as [<-|Hne].
  - rewrite lookup_insert_eq. intros [= <-]. simpl.
    rewrite List.map_app. simpl. apply NoDup_app.
    destruct (daysData s !! addEventDate s) as [before|] eqn:Hday; simpl.
    + split; [by apply (Hs (addEventDate s))|].
      split; [|apply NoDup_singleton].
      intros k Hk Hin. apply list_elem_of_In in Hk, Hin.
      destruct Hin as [<-|[]].
      apply in_map_iff in Hk as (e & Hid & He).
      by apply (Hnew (addEventDate s) before e).
    + split; [apply NoDup_nil_2|]. split; [|apply NoDup_singleton].
      intros k Hk. by apply not_elem_of_nil in Hk.
  - rewrite lookup_insert_ne by exact Hne. apply Hs.
Qed.

Lemma uniqueIds_handleDeleteEvent (s : GridState) :
  uniqueIds s -> uniqueIds (handleDeleteEvent s).
Proof.
  intros Hs. unfold handleDeleteEvent.
  destruct (selectedEvent s) as [sel|]; [|exact Hs].
  intros date ds. simpl.
  destruct (daysData s !! selectedEventDate s) as [dayState|] eqn:Hday;
    [|apply Hs].
  destruct (decide (selectedEventDate s = date)) as [<-|Hne].
  - rewrite lookup_insert_eq. intros [= <-]. simpl.
    assert (Hsub : List.map e_id
                     (List.filter
                        (fun e => negb (bool_decide (e_id e = e_id sel)))
                        (events dayState))
                   `sublist_of` List.map e_id (events dayState)).
    { change (List.map e_id ?l) with (e_id <$> l).
      apply fmap_sublist, filter_sublist. }
    eapply sublist_NoDup; [|exact Hsub]. by apply (Hs (selectedEventDate s)).
  - rewrite lookup_insert_ne by exact Hne. apply Hs.
Qed.

Lemma wellFormed_lockClick (editedDetails : jsstring) (s : GridState) :
  inSync s /\ uniqueIds s ->
  inSync (handleToggleLockClick editedDetails s)
  /\ uniqueIds (handleToggleLockClick editedDetails s).
Proof.
  intros [Hsync Hs]. unfold handleToggleLockClick.
  destruct (selectedEvent s) as [event|] eqn:Hsel; [|by split].
  destruct (e_locked event).
  { split; [|exact Hs]. unfold inSync. simpl. unfold inSync in Hsync.
    by rewrite Hsel in *. }
  destruct (isEmpty (trim editedDetails)); [by split|].
  rewrite handleToggleLock_shape. split.
  - apply updateSelectedDay_inSync; [done|]. by apply inSync_handleUpdateEvent.
  - apply uniqueIds_updateSelectedDay; [done|].
    by apply uniqueIds_handleUpdateEvent.
Qed.

(** Every state the interface reaches has its selection in step with the
    days data and distinct ids within each day, provided the ids drawn by
    [generateId] are new: the hypotheses under which the lock is shown to
    protect the details hold throughout a session. *)
Lemma reachable_wellFormed (s : GridState) :
  reachable s -> inSync s /\ uniqueIds s.
Proof.
  induction 1 as [|s s' _ [Hsync Hs] Hstep].
  - split; [exact I|]. intros date ds Hday.
    change (daysData initialGridState) with (∅ : gmap jsstring DayState) in Hday.
    by rewrite lookup_empty in Hday.
  - destruct Hstep.
    + by split.
    + split.
      * apply (inSync_handleSaveNewEvent newId now details) in Hsync.
        exact Hsync.
      * by apply (uniqueIds_handleSaveNewEvent newId now details).
    + by split.
    + split; [|exact Hs]. unfold inSync. simpl. exists dayState.
      split; [assumption|]. apply findEvent_unique; [|assumption].
      by apply (Hs date).
    + by split.
    + by apply wellFormed_lockClick.
    + unfold handleConfirmUnlock.
      destruct (selectedEvent s) as [sel|] eqn:Hsel; [|by split].
      rewrite handleToggleLock_shape. split.
      * by apply (updateSelectedDay_inSync (e_id sel)
                    (fun e => withLocked e (negb (e_locked e))) s).
      * by apply (uniqueIds_updateSelectedDay (e_id sel)
                    (fun e => withLocked e (negb (e_locked e))) s).
    + by split.
    + split; [|by apply uniqueIds_handleDeleteEvent].
      unfold handleDeleteEvent.
      destruct (selectedEvent s) as [sel|] eqn:Hsel; [exact I|exact Hsync].
    + change (CalendarGrid.handleAddVolunteer (e_id event) roleId volunteer s)
        with (updateSelectedDay (e_id event)
                (fun e =>
                   withRoles e
                     (<[roleId := roleVolunteers (e_roles e) roleId ++ [volunteer]]>
                        (e_roles e))) s).
      split; [by apply updateSelectedDay_inSync
             |by apply uniqueIds_updateSelectedDay].
    + rewrite handleRemoveVolunteer_shape.
      split; [by apply updateSelectedDay_inSync
             |by apply uniqueIds_updateSelectedDay].
Qed.
